(** * koa-bunyan-logger: request/response logging and labelled timers

    A shallow embedding of [src/index.js]: the hook runner [updateFields],
    the [requestLogger] middleware with its completion callback
    [onResponseFinished], and the [timeContext] operations [time] and
    [timeEnd].

    The program is effectful JavaScript, so the embedding threads an explicit
    [World] (the request context object, the history of log calls and the
    callbacks waiting on the transport) through a small state-and-exception
    monad.  Clock readings ([new Date().getTime()]) are passed in as
    arguments, one per reading. *)

From Stdlib Require Import ZArith Ascii String List Bool Lia.
From stdpp Require Import base gmap strings pretty.
Import ListNotations.

Local Open Scope Z_scope.
Local Open Scope string_scope.
Local Open Scope list_scope.

(** ** JavaScript values *)

(** Values that sit in a field of a log record or travel as an exception.
    [ErrorObj] is an [Error] instance, [Object] any other object, known only
    by its identity (the raw request and response descriptors, nested
    records, thrown plain objects). *)
Inductive atom : Type :=
| Undefined
| Null
| Bool (b : bool)
| Num (n : Z)
| NaN
| Str (s : string)
| ErrorObj (name message : string)
| Object (id : nat).

(** JavaScript truthiness: [undefined], [null], [false], [0], [NaN] and the
    empty string are falsy, every object is truthy. *)
Definition truthy (a : atom) : bool :=
  match a with
  | Undefined | Null | NaN => false
  | Bool b => b
  | Num n => negb (Z.eqb n 0)
  | Str s => negb (String.eqb s EmptyString)
  | ErrorObj _ _ | Object _ => true
  end.

(** The data handed from hook to hook: normally a field mapping, but a hook
    may return any truthy value in its place. *)
Inductive value : Type :=
| Prim (a : atom)
| Obj (fields : gmap string atom).

Definition truthy_value (v : value) : bool :=
  match v with
  | Prim a => truthy a
  | Obj _ => true
  end.

(** Own field [k] of a record. *)
Definition field (v : value) (k : string) : option atom :=
  match v with
  | Obj f => f !! k
  | Prim _ => None
  end.

Definition TypeError (message : string) : atom := ErrorObj "TypeError" message.

(** ** Log records *)

Inductive Level : Type := Trace | Debug | Info | Warn | Error | Fatal.

(** The message argument of a request or completion record.  The default
    formatters call Node's [util.format]; the embedding keeps the arguments
    of that call instead of rendering them. *)
Inductive message : Type :=
| Text (s : string)
| RequestLine (method url : string)
| ResponseLine (method url : string) (status : Z) (data : value)
    (durationField : string).

(** The arguments of one call [ctx.log[level](...)]. *)
Inductive logcall : Type :=
| Call1 (a : value)                       (* log[level](a) *)
| Call2 (a : value) (m : message)         (* log[level](a, msg) *)
| CallFmt (fmt : string) (arg : string).  (* log[level](fmt, arg) *)

(** Which statement of the program produced a record. *)
Inductive kind : Type :=
| RequestRecord       (* requestLogger, ctx.log.info(requestData, ...) *)
| CompletionRecord    (* onResponseFinished, ctx.log[level](responseData, ...) *)
| HookErrorRecord     (* updateFields, ctx.log.error(e) *)
| TimerWarning        (* time / timeEnd, ctx.log.warn(...) *)
| TimerRecord         (* timeEnd, ctx.log[logLevel](fields) *)
| HandlerRecord.      (* anything logged by the downstream handler chain *)

(** ** The request context and the world around it *)

Inductive Logger : Type := Bunyan (name : string).

(** A value stored in [ctx._timeContextStartTimes]: a clock reading written
    by [time], or the [null] written by [timeEnd]. *)
Inductive slot : Type :=
| Started (t : Z)
| Cleared.

(** The table is the object literal [{}]: besides its own properties it
    inherits those of [Object.prototype], until its prototype is changed. *)
Record StartTimes : Type := mkStartTimes {
  own : gmap string slot;
  inherits : bool
}.

Definition Object_prototype_names : list string :=
  [ "constructor"; "hasOwnProperty"; "isPrototypeOf"; "propertyIsEnumerable";
    "toLocaleString"; "toString"; "valueOf"; "__proto__";
    "__defineGetter__"; "__defineSetter__"; "__lookupGetter__";
    "__lookupSetter__" ].

Definition inherited_name (label : string) : bool :=
  existsb (String.eqb label) Object_prototype_names.

(** What [startTimes[label]] evaluates to.  [EInherited] is one of the
    functions of [Object.prototype], or, for [__proto__], that object. *)
Inductive entry : Type :=
| EUndefined
| ENull
| ENumber (t : Z)
| EInherited.

(** [startTimes[label]]: an own property hides an inherited one. *)
Definition get_startTime (st : StartTimes) (label : string) : entry :=
  match own st !! label with
  | Some (Started t) => ENumber t
  | Some Cleared => ENull
  | None =>
      if inherits st && inherited_name label then EInherited else EUndefined
  end.

(** [startTimes[label] = v].  Without an own property of that name, an
    assignment to [__proto__] reaches the setter inherited from
    [Object.prototype]: [null] removes the prototype, a number is ignored. *)
Definition assign_startTime (st : StartTimes) (label : string) (v : slot)
  : StartTimes :=
  match own st !! label with
  | Some _ => mkStartTimes (<[label := v]> (own st)) (inherits st)
  | None =>
      if inherits st && String.eqb label "__proto__"
      then match v with
           | Cleared => mkStartTimes (own st) false
           | Started _ => st
           end
      else mkStartTimes (<[label := v]> (own st)) (inherits st)
  end.

Definition entry_truthy (e : entry) : bool :=
  match e with
  | ENumber t => negb (Z.eqb t 0)
  | EInherited => true
  | EUndefined | ENull => false
  end.

(** A JavaScript number that is an integer or [NaN]. *)
Inductive number : Type :=
| Finite (n : Z)
| NotANumber.

(** [now - startTime]: [null] counts as 0; [undefined], a function and an
    object do not convert to a number. *)
Definition minus_entry (now : Z) (e : entry) : number :=
  match e with
  | ENumber t => Finite (now - t)
  | ENull => Finite now
  | EUndefined | EInherited => NotANumber
  end.

Definition number_atom (n : number) : atom :=
  match n with
  | Finite z => Num z
  | NotANumber => NaN
  end.

(** A number inside a string concatenation: decimal digits for an integer
    (clock readings and their differences stay far below the size at which
    JavaScript switches to exponent notation). *)
Definition number_string (n : number) : string :=
  match n with
  | Finite z => pretty z
  | NotANumber => "NaN"
  end.

(** The Koa context, with the properties this program reads or writes.
    [log] is [None] when [ctx.log] is undefined or [null]. *)
Record Ctx : Type := mkCtx {
  log : option Logger;
  req : atom;
  res : atom;
  status : Z;
  method : string;
  originalUrl : string;
  _timeContextStartTimes : StartTimes
}.

(** A hook is called with the data and, when there is a truthy error, with
    the error.  It may change the fields of the object it is handed in place
    ([after] is that object when the hook stops), and it either returns a
    value or throws one. *)
Inductive HookOutcome : Type :=
| Returns (after : gmap string atom) (result : value)
| Throws (after : gmap string atom) (exn : atom).

Definition Hook : Type := value -> option atom -> HookOutcome.

(** The object passed as [data], as the hook left it.  Only an object can be
    changed in place. *)
Definition mutated (data : value) (after : gmap string atom) : value :=
  match data with
  | Obj _ => Obj after
  | Prim a => Prim a
  end.

(** Options of [requestLogger]. *)
Record Opts : Type := mkOpts {
  durationField : option string;
  levelFn : option (Ctx -> atom -> Level);
  updateLogFields : option Hook;
  updateRequestLogFields : option Hook;
  updateResponseLogFields : option Hook;
  formatRequestMessage : option (Ctx -> value -> string);
  formatResponseMessage : option (Ctx -> value -> string)
}.

(** The closure [() => onResponseFinished(ctx)] handed to [onFinished]: it
    captures the options, [startTime] and [err]. *)
Record Callback : Type := mkCallback {
  cb_opts : Opts;
  cb_startTime : Z;
  cb_err : atom
}.

(** What can be observed of a request, in the order it happened. *)
Inductive event : Type :=
| Logged (k : kind) (lvl : Level) (c : logcall)
| HandlerSettled (thrown : option atom)   (* [await next()] came back *)
| CallbackRegistered                      (* onFinished(ctx.response.res, ...) *)
| TransportFinished.                      (* the response has been sent *)

Record World : Type := mkWorld {
  ctx : Ctx;
  history : list event;
  pending : list Callback
}.

(** ** A state-and-exception monad *)

Inductive Completion (A : Type) : Type :=
| Normal (a : A)
| Thrown (e : atom).
Arguments Normal {A} a.
Arguments Thrown {A} e.

Definition M (A : Type) : Type := World -> World * Completion A.

Definition ret {A} (a : A) : M A := fun w => (w, Normal a).

Definition throw {A} (e : atom) : M A := fun w => (w, Thrown e).

Definition bind {A B} (m : M A) (k : A -> M B) : M B :=
  fun w =>
    match m w with
    | (w', Normal a) => k a w'
    | (w', Thrown e) => (w', Thrown e)
    end.

Notation "x <- m ;; k" := (bind m (fun x => k))
  (at level 100, m at next level, right associativity).
Notation "m ;;; k" := (bind m (fun _ => k))
  (at level 100, right associativity).

(** [try { m } catch (e) { h e }] *)
Definition try_catch {A} (m : M A) (h : atom -> M A) : M A :=
  fun w =>
    match m w with
    | (w', Normal a) => (w', Normal a)
    | (w', Thrown e) => h e w'
    end.

Definition get_ctx : M Ctx := fun w => (w, Normal (ctx w)).

Definition put_ctx (c : Ctx) : M unit :=
  fun w => (mkWorld c (history w) (pending w), Normal tt).

Definition record_event (e : event) : M unit :=
  fun w => (mkWorld (ctx w) (history w ++ [e]) (pending w), Normal tt).

(** The value a function receives as its [ctx] argument: the request's
    context object, whose state lives in the [World], or [undefined]. *)
Inductive ctxArg : Type :=
| CtxUndefined
| CtxObject.

(** The errors Node raises for [undefined.log] and for a method read off a
    missing [ctx.log]; the wording of the message depends on the version of
    Node and plays no role below. *)
Definition undefined_has_no_log : atom :=
  TypeError "Cannot read property 'log' of undefined".

Definition log_is_missing : atom :=
  TypeError "Cannot read property of null".

(** [c.log[level](...)]: reading [log] off [undefined], or a method off a
    missing logger, raises a [TypeError]; otherwise the call is recorded. *)
Definition log_call (c : ctxArg) (k : kind) (lvl : Level) (call : logcall)
  : M unit :=
  match c with
  | CtxUndefined => throw undefined_has_no_log
  | CtxObject =>
      cx <- get_ctx ;;
      match log cx with
      | None => throw log_is_missing
      | Some _ => record_event (Logged k lvl call)
      end
  end.

(** ** The hook runner

<<
function updateFields(ctx, func, data, err) {
  if (!func) return data;
  try {
    if (err) { return func.call(ctx, data, err) || data; }
    else     { return func.call(ctx, data) || data; }
  } catch (e) {
    ctx.log.error(e);
    return data;
  }
}
>>
    An omitted [err] is [Undefined]. *)
Definition err_arg (err : atom) : option atom :=
  if truthy err then Some err else None.

Definition updateFields (c : ctxArg) (func : option Hook) (data : value)
    (err : atom) : M value :=
  match func with
  | None => ret data
  | Some f =>
      match f data (err_arg err) with
      | Returns after result =>
          ret (if truthy_value result then result else mutated data after)
      | Throws after e =>
          log_call c HookErrorRecord Error (Call1 (Prim e)) ;;;
          ret (mutated data after)
      end
  end.

(** ** requestLogger *)

(** [opts.durationField || 'duration']: an empty name is falsy too. *)
Definition durationField_of (opts : Opts) : string :=
  match durationField opts with
  | Some s => if String.eqb s EmptyString then "duration" else s
  | None => "duration"
  end.

Definition default_levelFn (cx : Ctx) (err : atom) : Level :=
  if (500 <=? status cx)%Z then Error
  else if (400 <=? status cx)%Z then Warn
  else Info.

Definition levelFn_of (opts : Opts) : Ctx -> atom -> Level :=
  match levelFn opts with
  | Some f => f
  | None => default_levelFn
  end.

Definition formatRequestMessage_of (opts : Opts) (cx : Ctx) (data : value)
  : message :=
  match formatRequestMessage opts with
  | Some f => Text (f cx data)
  | None => RequestLine (method cx) (originalUrl cx)
  end.

Definition formatResponseMessage_of (opts : Opts) (cx : Ctx) (data : value)
  : message :=
  match formatResponseMessage opts with
  | Some f => Text (f cx data)
  | None =>
      ResponseLine (method cx) (originalUrl cx) (status cx) data
        (durationField_of opts)
  end.

(** The downstream chain [next()]: it may change the context, log, and it
    settles by returning ([None]) or by throwing a value. *)
Definition Handler : Type := Ctx -> Ctx * list (Level * logcall) * option atom.

Definition handler_events (logs : list (Level * logcall)) : list event :=
  map (fun lc => Logged HandlerRecord (fst lc) (snd lc)) logs.

(** [await next()] *)
Definition run_next (next : Handler) : M unit :=
  fun w =>
    match next (ctx w) with
    | (cx', logs, settled) =>
        (mkWorld cx' (history w ++ handler_events logs ++ [HandlerSettled settled])
           (pending w),
         match settled with
         | None => Normal tt
         | Some e => Thrown e
         end)
    end.

(** [onFinished(ctx.response.res, () => onResponseFinished(ctx))]: the
    listener is queued; it never runs inside this call. *)
Definition onFinished (cb : Callback) : M unit :=
  fun w =>
    (mkWorld (ctx w) (history w ++ [CallbackRegistered]) (pending w ++ [cb]),
     Normal tt).

(** [responseData[durationField] = duration] on the object literal of line
    153: the name [__proto__] reaches the setter inherited from
    [Object.prototype], which ignores a number, so nothing is stored. *)
Definition assign_duration (opts : Opts) (responseData : gmap string atom)
    (duration : Z) : gmap string atom :=
  if String.eqb (durationField_of opts) "__proto__"
  then responseData
  else <[durationField_of opts := Num duration]> responseData.

(** Lines 153-162: the fields the completion hooks start from. *)
Definition responseData_base (opts : Opts) (cx : Ctx) (startTime : Z)
    (err : atom) (now : Z) : gmap string atom :=
  let responseData : gmap string atom :=
    {[ "req" := req cx; "res" := res cx ]} in
  let responseData :=
    if truthy err then <["err" := err]> responseData else responseData in
  assign_duration opts responseData (now - startTime).

(** The completion callback; [now] is its clock reading. *)
Definition onResponseFinished (cb : Callback) (now : Z) : M unit :=
  let opts := cb_opts cb in
  let err := cb_err cb in
  cx <- get_ctx ;;
  let responseData :=
    Obj (responseData_base opts cx (cb_startTime cb) err now) in
  responseData <-
    updateFields CtxObject (updateLogFields opts) responseData Undefined ;;
  responseData <-
    updateFields CtxObject (updateResponseLogFields opts) responseData err ;;
  let level := levelFn_of opts cx err in
  log_call CtxObject CompletionRecord level
    (Call2 responseData (formatResponseMessage_of opts cx responseData)) ;;;
  (* Remove log object to mitigate accidental leaks *)
  put_ctx (mkCtx None (req cx) (res cx) (status cx) (method cx)
             (originalUrl cx) (_timeContextStartTimes cx)).

(** Lines 140-147: the request record. *)
Definition request_phase (opts : Opts) (this : ctxArg) : M unit :=
  cx <- get_ctx ;;
  let requestData := Obj {[ "req" := req cx ]} in
  requestData <-
    updateFields this (updateLogFields opts) requestData Undefined ;;
  requestData <-
    updateFields this (updateRequestLogFields opts) requestData Undefined ;;
  log_call CtxObject RequestRecord Info
    (Call2 requestData (formatRequestMessage_of opts cx requestData)).

(** Lines 149-192: run the chain, queue the completion callback, rethrow.
    [var err] starts out [undefined]. *)
Definition handler_phase (opts : Opts) (next : Handler) (now : Z) : M unit :=
  let startTime := now in
  err <- try_catch (run_next next ;;; ret Undefined) (fun e => ret e) ;;
  onFinished (mkCallback opts startTime err) ;;;
  if truthy err then throw err else ret tt.

(** The middleware.  [this] is the receiver it is called with, [now] the
    reading of the clock taken for [startTime]. *)
Definition requestLogger (opts : Opts) (this : ctxArg) (next : Handler)
    (now : Z) : M unit :=
  request_phase opts this ;;;
  handler_phase opts next now.

(** ** The transport *)

(** One queued listener runs; what it throws does not reach the
    middleware's caller.  Listeners fired by the same signal read the same
    clock value. *)
Definition fire (now : Z) (w : World) (cb : Callback) : World :=
  fst (onResponseFinished cb now w).

(** The response has been fully sent: every queued listener runs once and
    the queue is emptied. *)
Definition transport_finish (now : Z) (w : World) : World :=
  fold_left (fire now) (pending w)
    (mkWorld (ctx w) (history w ++ [TransportFinished]) []).

(** Whatever sits above the middleware (Koa's error handling, the code
    that writes the response) may still change the context before the
    response is sent. *)
Definition upstream (f : Ctx -> Ctx) (w : World) : World :=
  mkWorld (f (ctx w)) (history w) (pending w).

(** One request, from the middleware call to the end of the response,
    when the response is finished after the middleware has returned. *)
Definition serve (opts : Opts) (this : ctxArg) (next : Handler) (t_start : Z)
    (f : Ctx -> Ctx) (t_finish : Z) (w : World) : World * Completion unit :=
  match requestLogger opts this next t_start w with
  | (w1, r) => (transport_finish t_finish (upstream f w1), r)
  end.



(** ** Reading the history *)

Definition is_kind (k : kind) (e : event) : bool :=
  match e, k with
  | Logged RequestRecord _ _, RequestRecord
  | Logged CompletionRecord _ _, CompletionRecord
  | Logged HookErrorRecord _ _, HookErrorRecord
  | Logged TimerWarning _ _, TimerWarning
  | Logged TimerRecord _ _, TimerRecord
  | Logged HandlerRecord _ _, HandlerRecord => true
  | _, _ => false
  end.

Definition count_kind (k : kind) (h : list event) : nat :=
  length (filter (fun e => is_kind k e = true) h).

(** The [msg] bunyan gives a record logged as [log.warn(fmt, arg)]:
    [util.format(fmt, arg)] for a string argument and a format whose only
    directives are [%s] and [%%], as in the two calls of this program. *)
Fixpoint format1 (fmt arg : string) : string :=
  match fmt with
  | EmptyString => " " +:+ arg
  | String "%"%char (String "s"%char rest) => arg +:+ rest
  | String "%"%char (String "%"%char rest) => String "%"%char (format1 rest arg)
  | String c rest => String c (format1 rest arg)
  end.

(** ** timeContext *)

Module TimeContext.

Record Opts : Type := mkOpts {
  logLevel : option Level;
  updateLogFields : option Hook
}.

(** [opts.logLevel || 'trace'] *)
Definition logLevel_of (opts : Opts) : Level :=
  match logLevel opts with
  | Some l => l
  | None => Trace
  end.

(** [ctx._timeContextStartTimes = {}] *)
Definition timeContext : M unit :=
  cx <- get_ctx ;;
  put_ctx (mkCtx (log cx) (req cx) (res cx) (status cx) (method cx)
             (originalUrl cx) (mkStartTimes ∅ true)).

(** [startTimes[label] = v] on the table of the context. *)
Definition set_startTime (label : string) (v : slot) : M unit :=
  cx <- get_ctx ;;
  put_ctx (mkCtx (log cx) (req cx) (res cx) (status cx) (method cx)
             (originalUrl cx)
             (assign_startTime (_timeContextStartTimes cx) label v)).

Definition time (label : string) (now : Z) : M unit :=
  cx <- get_ctx ;;
  let startTimes := _timeContextStartTimes cx in
  (if entry_truthy (get_startTime startTimes label)
   then log_call CtxObject TimerWarning Warn
          (CallFmt "time() called for previously used label %s" label)
   else ret tt) ;;;
  set_startTime label (Started now).

Definition timer_fields (label : string) (duration : number)
  : gmap string atom :=
  {[ "label" := Str label;
     "duration" := number_atom duration;
     "msg" := Str (((label +:+ ": ") +:+ number_string duration) +:+ "ms") ]}.

Definition timeEnd (opts : Opts) (label : string) (now : Z) : M unit :=
  cx <- get_ctx ;;
  let startTimes := _timeContextStartTimes cx in
  let startTime := get_startTime startTimes label in
  if negb (entry_truthy startTime)
  then
    (* whoops! *)
    log_call CtxObject TimerWarning Warn
      (CallFmt "timeEnd() called without time() for label %s" label)
  else
    let duration := minus_entry now startTime in
    fields <-
      updateFields CtxObject (updateLogFields opts)
        (Obj (timer_fields label duration)) Undefined ;;
    log_call CtxObject TimerRecord (logLevel_of opts) (Call1 fields) ;;;
    set_startTime label Cleared.

End TimeContext.

(** ** Vocabulary for the statements *)

(** The value [updateFields] hands back when the hook is called with
    argument [arg] and the runner itself does not fail. *)
Definition hook_result (func : option Hook) (data : value) (arg : option atom)
  : value :=
  match func with
  | None => data
  | Some f =>
      match f data arg with
      | Returns after result =>
          if truthy_value result then result else mutated data after
      | Throws after _ => mutated data after
      end
  end.

(** The error record the runner writes for that call, if the hook throws. *)
Definition hook_errors (func : option Hook) (data : value) (arg : option atom)
  : list event :=
  match func with
  | None => []
  | Some f =>
      match f data arg with
      | Returns _ _ => []
      | Throws _ e => [Logged HookErrorRecord Error (Call1 (Prim e))]
      end
  end.

Definition hook_throws (func : option Hook) (data : value) (arg : option atom)
  : bool :=
  match func with
  | None => false
  | Some f =>
      match f data arg with
      | Returns _ _ => false
      | Throws _ _ => true
      end
  end.

(** The world after some more events. *)
Definition logged (w : World) (es : list event) : World :=
  mkWorld (ctx w) (history w ++ es) (pending w).

Definition clear_log (cx : Ctx) : Ctx :=
  mkCtx None (req cx) (res cx) (status cx) (method cx) (originalUrl cx)
    (_timeContextStartTimes cx).

Definition with_startTimes (m : StartTimes) (cx : Ctx) : Ctx :=
  mkCtx (log cx) (req cx) (res cx) (status cx) (method cx) (originalUrl cx) m.

(** The captured [err] after the chain has settled. *)
Definition captured (settled : option atom) : atom :=
  match settled with
  | Some e => e
  | None => Undefined
  end.

(** The payload of the request record and of the completion record. *)
Definition request_payload (opts : Opts) (cx : Ctx) : value :=
  hook_result (updateRequestLogFields opts)
    (hook_result (updateLogFields opts) (Obj {[ "req" := req cx ]}) None)
    None.

Definition completion_payload (opts : Opts) (cx : Ctx) (startTime : Z)
    (err : atom) (now : Z) : value :=
  hook_result (updateResponseLogFields opts)
    (hook_result (updateLogFields opts)
       (Obj (responseData_base opts cx startTime err now)) None)
    (err_arg err).

(** A hook sets field [k] to [v]: whatever record it is handed, the record
    it leaves has [k] at [v]. *)
Definition hook_sets (func : option Hook) (k : string) (v : atom) : Prop :=
  forall fields arg, field (hook_result func (Obj fields) arg) k = Some v.

(** A hook leaves field [k] as it finds it. *)
Definition hook_keeps (func : option Hook) (k : string) : Prop :=
  forall data arg, field (hook_result func data arg) k = field data k.

Definition with_levelFn (lf : Ctx -> atom -> Level) (opts : Opts) : Opts :=
  mkOpts (durationField opts) (Some lf) (updateLogFields opts)
    (updateRequestLogFields opts) (updateResponseLogFields opts)
    (formatRequestMessage opts) (formatResponseMessage opts).

(** The levels of the records of a given kind, in order. *)
Definition levels (k : kind) (h : list event) : list Level :=
  flat_map (fun e =>
    match e with
    | Logged k' lvl c => if is_kind k (Logged k' lvl c) then [lvl] else []
    | _ => []
    end) h.

Definition with_updateRequestLogFields (rq : option Hook) (opts : Opts) : Opts :=
  mkOpts (durationField opts) (levelFn opts) (updateLogFields opts) rq
    (updateResponseLogFields opts) (formatRequestMessage opts)
    (formatResponseMessage opts).

(** ** Fixtures: the configurations of the test suite *)

Definition fields_of (v : value) : gmap string atom :=
  match v with
  | Obj f => f
  | Prim _ => ∅
  end.

(** A hook that only edits the fields in place and returns nothing. *)
Definition in_place (edit : option atom -> gmap string atom -> gmap string atom)
  : Hook :=
  fun data arg => Returns (edit arg (fields_of data)) (Prim Undefined).

(** [function(fields) { throw new Error('clumsy'); }] *)
Definition clumsy : Hook :=
  fun data _ => Throws (fields_of data) (ErrorObj "Error" "clumsy").

Definition noOpts : Opts := mkOpts None None None None None None None.

Definition ctx0 : Ctx :=
  mkCtx (Some (Bunyan "test")) (Object 1) (Object 2) 200 "GET" "/"
    (mkStartTimes ∅ true).

Definition world0 : World := mkWorld ctx0 [] [].

(** [async ctx => { ctx.body = 'Hello world'; }] *)
Definition helloWorld : Handler := fun cx => (cx, [], None).

(** A handler that throws [e]. *)
Definition throwing (e : atom) : Handler := fun cx => (cx, [], Some e).

(** Koa's default error handling: a rethrown error becomes a 500. *)
Definition respond500 (cx : Ctx) : Ctx :=
  mkCtx (log cx) (req cx) (res cx) 500 (method cx) (originalUrl cx)
    (_timeContextStartTimes cx).

(** The hooks of the test "allows adding fields to request/response log
    data". *)
Definition test_updateLogFields : Hook :=
  in_place (fun _ fields =>
    <["baz2" := Str "fuzz"]> (<["baz1" := Str "fizz"]>
      (<["foo" := Str "bar"]> fields))).

Definition test_updateRequestLogFields : Hook :=
  in_place (fun _ fields =>
    delete "baz1" (<["addedToReq" := Str "hello"]> fields)).

Definition test_updateResponseLogFields : Hook :=
  in_place (fun err fields =>
    let fields := delete "baz2" (<["addedToRes" := Str "world"]> fields) in
    match err with
    | Some _ => <["error_handled" := Bool true]> fields
    | None => fields
    end).

Definition test_opts : Opts :=
  mkOpts None None (Some test_updateLogFields)
    (Some test_updateRequestLogFields) (Some test_updateResponseLogFields)
    None None.

Definition clumsy_request_opts : Opts :=
  mkOpts None None (Some clumsy) None None None None.

Definition clumsy_response_opts : Opts :=
  mkOpts None None None None (Some clumsy) None None.

(** The hook of the test "allows returning custom log fields": it returns
    a new record holding one nested object. *)
Definition test_returns_trace : Hook :=
  fun data _ => Returns (fields_of data) (Obj {[ "request_trace" := Object 7 ]}).

Definition uh_oh : atom := ErrorObj "Error" "uh oh".

(** The payloads of the records of a given kind, in order. *)
Definition payloads (k : kind) (h : list event) : list value :=
  flat_map (fun e =>
    match e with
    | Logged k' _ (Call1 a) | Logged k' _ (Call2 a _) =>
        if is_kind k (Logged k' Info (Call1 a)) then [a] else []
    | _ => []
    end) h.

(** ** The logger middleware

<<
function createOrUseLogger(logger) {
  if (!logger || !logger.info || !logger.child) {
    var loggerOpts = logger || {};
    loggerOpts.name = loggerOpts.name || 'koa';
    loggerOpts.serializers = loggerOpts.serializers || bunyan.stdSerializers;
    logger = bunyan.createLogger(loggerOpts);
  }
  return logger;
}
>>
    The argument is documented as a bunyan logger, or an object of options
    for [bunyan.createLogger], or nothing.  An object is given by what
    reading its properties yields. *)

(** [o.k] *)
Definition property (o : gmap string atom) (k : string) : atom :=
  match o !! k with
  | Some a => a
  | None => Undefined
  end.

(** What the function returns: the object it was given, or the logger
    bunyan creates from the options it is handed. *)
Inductive LoggerChoice : Type :=
| UseInstance (logger : gmap string atom)
| CreateLogger (loggerOpts : gmap string atom).

(** [x || d] *)
Definition or_else (x d : atom) : atom := if truthy x then x else d.

(** The body of the [if]: the options are completed in place. *)
Definition completed_options (stdSerializers : atom)
    (loggerOpts : gmap string atom) : gmap string atom :=
  let loggerOpts :=
    <["name" := or_else (property loggerOpts "name") (Str "koa")]> loggerOpts in
  <["serializers" :=
      or_else (property loggerOpts "serializers") stdSerializers]> loggerOpts.

(** [stdSerializers] stands for [bunyan.stdSerializers]. *)
Definition createOrUseLogger (stdSerializers : atom)
    (logger : option (gmap string atom)) : LoggerChoice :=
  match logger with
  | None => CreateLogger (completed_options stdSerializers ∅)
  | Some l =>
      if negb (truthy (property l "info")) || negb (truthy (property l "child"))
      then CreateLogger (completed_options stdSerializers l)
      else UseInstance l
  end.

(** The middleware returned by the exported function:
    [ctx.log = loggerInstance; await next();] *)
Definition koaBunyanLogger (loggerInstance : Logger) (next : M unit) : M unit :=
  cx <- get_ctx ;;
  put_ctx (mkCtx (Some loggerInstance) (req cx) (res cx) (status cx)
             (method cx) (originalUrl cx) (_timeContextStartTimes cx)) ;;;
  next.

(** ** requestIdContext *)

Module RequestIdContext.

Record Opts : Type := mkOpts {
  header : option string;
  prop : option string;
  requestProp : option string;
  field : option string
}.

(** [opts.x || d] for a string option: absent and empty both give [d]. *)
Definition or_default (o : option string) (d : string) : string :=
  match o with
  | Some s => if String.eqb s EmptyString then d else s
  | None => d
  end.

(** What [ctx.log] is found to be. *)
Inductive LogProperty (L : Type) : Type :=
| NoLog                 (* falsy *)
| ALogger (l : L)       (* a logger *)
| NotALogger.           (* truthy, without a [child] method *)
Arguments NoLog {L}.
Arguments ALogger {L} l.
Arguments NotALogger {L}.

(** The operations of Koa and bunyan the middleware relies on, over the
    state [C] of a context and the loggers [L]. *)
Record Koa (C L : Type) : Type := mkKoa {
  request_get : C -> string -> string;        (* ctx.request.get(name) *)
  ctx_set : string -> string -> C -> C;        (* ctx[name] = value *)
  request_set : string -> string -> C -> C;    (* ctx.request[name] = value *)
  ctx_log : C -> LogProperty L;                (* ctx.log *)
  ctx_set_log : L -> C -> C;                   (* ctx.log = logger *)
  child : L -> gmap string string -> L         (* logger.child(fields) *)
}.
Arguments request_get {C L} _ _ _.
Arguments ctx_set {C L} _ _ _ _.
Arguments request_set {C L} _ _ _ _.
Arguments ctx_log {C L} _ _.
Arguments ctx_set_log {C L} _ _ _.
Arguments child {C L} _ _ _.

(** [ctx.request.get(header) || uuid.v4()] *)
Definition request_id {C L} (K : Koa C L) (opts : Opts) (uuid_v4 : string)
    (c : C) : string :=
  let from_header := request_get K c (or_default (header opts) "X-Request-Id") in
  if String.eqb from_header EmptyString then uuid_v4 else from_header.





(** A small Koa for examples: the request headers, the properties set on
    the context and on the request, and the fields bound to [ctx.log]. *)
Record ToyCtx : Type := mkToyCtx {
  toy_headers : gmap string string;
  toy_ctx : gmap string string;
  toy_request : gmap string string;
  toy_log : option (gmap string string)
}.

Definition toy : Koa ToyCtx (gmap string string) :=
  mkKoa ToyCtx (gmap string string)
    (fun c name =>
       match toy_headers c !! name with
       | Some v => v
       | None => EmptyString
       end)
    (fun name v c =>
       mkToyCtx (toy_headers c) (<[name := v]> (toy_ctx c)) (toy_request c)
         (toy_log c))
    (fun name v c =>
       mkToyCtx (toy_headers c) (toy_ctx c) (<[name := v]> (toy_request c))
         (toy_log c))
    (fun c =>
       match toy_log c with
       | Some l => ALogger l
       | None => NoLog
       end)
    (fun l c => mkToyCtx (toy_headers c) (toy_ctx c) (toy_request c) (Some l))
    (fun l fields => fields ∪ l).

Definition noOpts : Opts := mkOpts None None None None.

End RequestIdContext.

(** ** More fixtures *)

(** [function (ctx, err) { return err === null ? 'fatal' : 'info'; }] *)
Definition level_reads_err (cx : Ctx) (err : atom) : Level :=
  match err with
  | Null => Fatal
  | _ => Info
  end.

Definition level_opts : Opts :=
  mkOpts None (Some level_reads_err) None None None None None.

(** A logger object, by its methods, and an options object. *)
Definition a_logger : gmap string atom :=
  {[ "info" := Object 10; "child" := Object 11; "name" := Str "test" ]}.

Definition some_options : gmap string atom :=
  {[ "level" := Str "debug" ]}.

(** A context on which no logger middleware has run. *)
Definition ctx_bare : Ctx :=
  mkCtx None (Object 1) (Object 2) 404 "GET" "/" (mkStartTimes ∅ true).

Definition world_bare : World := mkWorld ctx_bare [] [].

(** * Properties *)

(** ** The monad and the logger *)

Lemma logged_nil (w : World) : logged w [] = w.
Proof. destruct w; unfold logged; simpl. by rewrite app_nil_r. Qed.

Lemma logged_logged (w : World) (es es' : list event) :
  logged (logged w es) es' = logged w (es ++ es').
Proof. unfold logged; simpl. by rewrite app_assoc. Qed.

Lemma log_call_attached (k : kind) (lvl : Level) (call : logcall) (w : World)
    (lg : Logger) :
  log (ctx w) = Some lg ->
  log_call CtxObject k lvl call w = (logged w [Logged k lvl call], Normal tt).
Proof.
  intros Hlog. unfold log_call, bind, get_ctx, record_event.
  by rewrite Hlog.
Qed.

Lemma log_call_undefined (k : kind) (lvl : Level) (call : logcall) (w : World) :
  log_call CtxUndefined k lvl call w
  = (w, Thrown undefined_has_no_log).
Proof. reflexivity. Qed.

Lemma append_empty_r (s : string) : s +:+ EmptyString = s.
Proof.
  induction s as [|c s IH]; [done|].
  change (String c (s +:+ EmptyString) = String c s). by rewrite IH.
Qed.

Lemma format1_time (label : string) :
  format1 "time() called for previously used label %s" label
  = "time() called for previously used label " +:+ label.
Proof. simpl. rewrite append_empty_r. reflexivity. Qed.

Lemma format1_timeEnd (label : string) :
  format1 "timeEnd() called without time() for label %s" label
  = "timeEnd() called without time() for label " +:+ label.
Proof. simpl. rewrite append_empty_r. reflexivity. Qed.

(** ** The hook runner *)

(** With the context object as [ctx] and a logger on it, the runner always
    returns: a throwing hook costs one error record. *)
Lemma updateFields_attached (func : option Hook) (data : value) (err : atom)
    (w : World) (lg : Logger) :
  log (ctx w) = Some lg ->
  updateFields CtxObject func data err w
  = (logged w (hook_errors func data (err_arg err)),
     Normal (hook_result func data (err_arg err))).
Proof.
  intros Hlog. unfold updateFields, hook_errors, hook_result.
  destruct func as [f|]; [|by rewrite logged_nil].
  destruct (f data (err_arg err)) as [after r|after e].
  - by rewrite logged_nil.
  - unfold bind. by rewrite (log_call_attached _ _ _ _ lg Hlog).
Qed.

(** With [undefined] as [ctx], what a hook throws is replaced by the
    [TypeError] of the failed report. *)
Lemma updateFields_undefined (func : option Hook) (data : value) (err : atom)
    (w : World) :
  hook_throws func data (err_arg err) = true ->
  updateFields CtxUndefined func data err w
  = (w, Thrown undefined_has_no_log).
Proof.
  unfold updateFields, hook_throws.
  destruct func as [f|]; [|done].
  by destruct (f data (err_arg err)).
Qed.

(** A hook that does not throw never makes the runner touch [ctx]. *)
Lemma updateFields_quiet (c : ctxArg) (func : option Hook) (data : value)
    (err : atom) (w : World) :
  hook_throws func data (err_arg err) = false ->
  updateFields c func data err w
  = (w, Normal (hook_result func data (err_arg err))).
Proof.
  unfold updateFields, hook_throws, hook_result.
  destruct func as [f|]; [|done].
  by destruct (f data (err_arg err)).
Qed.

Lemma hook_errors_quiet (func : option Hook) (data : value) (arg : option atom) :
  hook_throws func data arg = false -> hook_errors func data arg = [].
Proof.
  unfold hook_throws, hook_errors. destruct func as [f|]; [|done].
  by destruct (f data arg).
Qed.

(** C4.  Hook runner: with no hook the data comes back unchanged; a truthy
    return value replaces the data entirely; with a falsy (or no) return
    value the data object is kept, with the fields the hook left in it (a
    primitive passed as data cannot be changed and comes back as it is). *)
Theorem updateFields_replacement (c : ctxArg) (data : value) (err : atom)
    (w : World) :
  updateFields c None data err w = (w, Normal data)
  /\ (forall (f : Hook) after result,
        f data (err_arg err) = Returns after result ->
        truthy_value result = true ->
        updateFields c (Some f) data err w = (w, Normal result))
  /\ (forall (f : Hook) after result,
        f data (err_arg err) = Returns after result ->
        truthy_value result = false ->
        updateFields c (Some f) data err w
        = (w, Normal match data with
                     | Obj _ => Obj after
                     | Prim a => Prim a
                     end)).
Proof.
  split; [done|].
  split; intros f after result Hf Ht; unfold updateFields;
    rewrite Hf; unfold ret; rewrite Ht; [done|].
  by destruct data.
Qed.

Lemma updateFields_replacement_witness :
  updateFields CtxObject (Some test_returns_trace) (Obj ∅) Undefined world0
  = (world0, Normal (Obj {[ "request_trace" := Object 7 ]}))
  /\ updateFields CtxObject (Some test_updateLogFields)
       (Obj {[ "req" := Object 1 ]}) Undefined world0
     = (world0,
        Normal (Obj (<["baz2" := Str "fuzz"]> (<["baz1" := Str "fizz"]>
                       (<["foo" := Str "bar"]> {[ "req" := Object 1 ]}))))).
Proof.
  split.
  - pose proof (updateFields_replacement CtxObject (Obj ∅) Undefined world0)
      as (_ & Hreplace & _).
    apply (Hreplace test_returns_trace ∅); reflexivity.
  - pose proof (updateFields_replacement CtxObject
                  (Obj {[ "req" := Object 1 ]}) Undefined world0)
      as (_ & _ & Hkeep).
    apply (Hkeep test_updateLogFields
             (<["baz2" := Str "fuzz"]> (<["baz1" := Str "fizz"]>
                (<["foo" := Str "bar"]> {[ "req" := Object 1 ]})))
             (Prim Undefined)); reflexivity.
Defined.

(** ** requestLogger, phase by phase *)

(** Called on the context object, the request phase always ends with the
    request record, after the error records of the hooks that threw. *)
Lemma request_phase_on_ctx (opts : Opts) (w : World) (lg : Logger) :
  log (ctx w) = Some lg ->
  let d0 := Obj {[ "req" := req (ctx w) ]} in
  let d1 := hook_result (updateLogFields opts) d0 None in
  request_phase opts CtxObject w
  = (logged w
       (hook_errors (updateLogFields opts) d0 None
        ++ hook_errors (updateRequestLogFields opts) d1 None
        ++ [Logged RequestRecord Info
              (Call2 (request_payload opts (ctx w))
                 (formatRequestMessage_of opts (ctx w)
                    (request_payload opts (ctx w))))]),
     Normal tt).
Proof.
  intros Hlog d0 d1. unfold request_phase, bind, get_ctx.
  rewrite (updateFields_attached _ _ _ w lg Hlog).
  rewrite (updateFields_attached _ _ _ (logged w _) lg Hlog).
  rewrite (log_call_attached _ _ _ (logged (logged w _) _) lg Hlog).
  by rewrite !logged_logged.
Qed.

(** Whatever the receiver, hooks that return leave the request phase with
    the request record alone. *)
Lemma request_phase_quiet (opts : Opts) (this : ctxArg) (w : World)
    (lg : Logger) :
  log (ctx w) = Some lg ->
  let d0 := Obj {[ "req" := req (ctx w) ]} in
  let d1 := hook_result (updateLogFields opts) d0 None in
  hook_throws (updateLogFields opts) d0 None = false ->
  hook_throws (updateRequestLogFields opts) d1 None = false ->
  request_phase opts this w
  = (logged w
       [Logged RequestRecord Info
          (Call2 (request_payload opts (ctx w))
             (formatRequestMessage_of opts (ctx w)
                (request_payload opts (ctx w))))],
     Normal tt).
Proof.
  intros Hlog d0 d1 H0 H1. subst d0 d1.
  unfold request_phase, bind, get_ctx.
  rewrite (updateFields_quiet this _ _ Undefined w H0).
  cbn [err_arg truthy].
  rewrite (updateFields_quiet this _ _ Undefined w H1).
  by rewrite (log_call_attached _ _ _ _ lg Hlog).
Qed.

(** The handler phase never fails to queue the callback; it rethrows a
    truthy captured value and nothing else. *)
Lemma handler_phase_settled (opts : Opts) (next : Handler) (now : Z)
    (w : World) (cx' : Ctx) (logs : list (Level * logcall))
    (settled : option atom) :
  next (ctx w) = (cx', logs, settled) ->
  handler_phase opts next now w
  = (mkWorld cx'
       (history w ++ handler_events logs
        ++ [HandlerSettled settled; CallbackRegistered])
       (pending w ++ [mkCallback opts now (captured settled)]),
     if truthy (captured settled) then Thrown (captured settled)
     else Normal tt).
Proof.
  intros Hnext.
  unfold handler_phase, bind, try_catch, run_next, onFinished, ret, throw.
  rewrite Hnext.
  destruct settled as [e|]; simpl.
  - destruct (truthy e); simpl; by rewrite <- !app_assoc.
  - by rewrite <- !app_assoc.
Qed.

(** The completion callback on a context that still has its logger. *)
Lemma onResponseFinished_attached (cb : Callback) (now : Z) (w : World)
    (lg : Logger) :
  log (ctx w) = Some lg ->
  let opts := cb_opts cb in
  let d0 :=
    Obj (responseData_base opts (ctx w) (cb_startTime cb) (cb_err cb) now) in
  let d1 := hook_result (updateLogFields opts) d0 None in
  let d2 := completion_payload opts (ctx w) (cb_startTime cb) (cb_err cb) now in
  onResponseFinished cb now w
  = (mkWorld (clear_log (ctx w))
       (history w
        ++ hook_errors (updateLogFields opts) d0 None
        ++ hook_errors (updateResponseLogFields opts) d1 (err_arg (cb_err cb))
        ++ [Logged CompletionRecord (levelFn_of opts (ctx w) (cb_err cb))
              (Call2 d2 (formatResponseMessage_of opts (ctx w) d2))])
       (pending w),
     Normal tt).
Proof.
  intros Hlog opts d0 d1 d2. unfold onResponseFinished, bind, get_ctx.
  rewrite (updateFields_attached _ _ _ w lg Hlog).
  rewrite (updateFields_attached _ _ _ (logged w _) lg Hlog).
  rewrite (log_call_attached _ _ _ (logged (logged w _) _) lg Hlog).
  unfold put_ctx, logged, clear_log; simpl.
  by rewrite <- !app_assoc.
Qed.

(** Without a logger the callback writes no completion record. *)
Lemma onResponseFinished_detached (cb : Callback) (now : Z) (w : World) :
  log (ctx w) = None ->
  count_kind CompletionRecord (history (fst (onResponseFinished cb now w)))
  = count_kind CompletionRecord (history w).
Proof.
  intros Hlog.
  assert (Hcall : forall k lvl call (w' : World),
             log (ctx w') = None ->
             log_call CtxObject k lvl call w'
             = (w', Thrown log_is_missing)).
  { intros k lvl call w' H. unfold log_call, bind, get_ctx. by rewrite H. }
  assert (Hupd : forall func data err,
             exists r, updateFields CtxObject func data err w = (w, r)).
  { intros func data err. unfold updateFields.
    destruct func as [f|]; [|by eexists].
    destruct (f data (err_arg err)); [by eexists|].
    unfold bind. rewrite (Hcall _ _ _ w Hlog). by eexists. }
  unfold onResponseFinished, bind, get_ctx.
  destruct (Hupd (updateLogFields (cb_opts cb))
              (Obj (responseData_base (cb_opts cb) (ctx w) (cb_startTime cb)
                      (cb_err cb) now)) Undefined) as [r1 ->].
  destruct r1 as [d1|e1]; [|done].
  destruct (Hupd (updateResponseLogFields (cb_opts cb)) d1 (cb_err cb))
    as [r2 ->].
  destruct r2 as [d2|e2]; [|done].
  by rewrite (Hcall _ _ _ w Hlog).
Qed.

(** The hook runner and the request phase only ever add records. *)
Lemma updateFields_frame (c : ctxArg) (func : option Hook) (data : value)
    (err : atom) (w : World) :
  exists es,
    fst (updateFields c func data err w) = logged w es
    /\ count_kind CompletionRecord es = 0%nat.
Proof.
  unfold updateFields. destruct func as [f|].
  - destruct (f data (err_arg err)) as [after r|after e].
    + exists []. by rewrite logged_nil.
    + unfold bind, log_call. destruct c.
      * exists []. by rewrite logged_nil.
      * unfold bind, get_ctx, record_event, throw.
        destruct (log (ctx w)).
        -- by eexists [_].
        -- exists []. by rewrite logged_nil.
  - exists []. by rewrite logged_nil.
Qed.

Lemma count_kind_app (k : kind) (h h' : list event) :
  count_kind k (h ++ h') = (count_kind k h + count_kind k h')%nat.
Proof. unfold count_kind. by rewrite filter_app, length_app. Qed.

Lemma request_phase_frame (opts : Opts) (this : ctxArg) (w : World) :
  exists es,
    fst (request_phase opts this w) = logged w es
    /\ count_kind CompletionRecord es = 0%nat.
Proof.
  unfold request_phase, bind, get_ctx.
  destruct (updateFields_frame this (updateLogFields opts)
              (Obj {[ "req" := req (ctx w) ]}) Undefined w) as (es1 & H1 & C1).
  destruct (updateFields this (updateLogFields opts)
              (Obj {[ "req" := req (ctx w) ]}) Undefined w) as [w1 [d1|e1]];
    simpl in H1; subst w1; [|by exists es1].
  destruct (updateFields_frame this (updateRequestLogFields opts) d1 Undefined
              (logged w es1)) as (es2 & H2 & C2).
  destruct (updateFields this (updateRequestLogFields opts) d1 Undefined
              (logged w es1)) as [w2 [d2|e2]];
    simpl in H2; subst w2; rewrite logged_logged.
  - unfold log_call, bind, get_ctx, record_event, throw; simpl.
    destruct (log (ctx w)); simpl.
    + exists ((es1 ++ es2)
              ++ [Logged RequestRecord Info
                    (Call2 d2 (formatRequestMessage_of opts (ctx w) d2))])%list.
      split; [unfold logged; simpl; by rewrite <- !app_assoc|].
      by rewrite !count_kind_app, C1, C2.
    + exists (es1 ++ es2)%list. split; [done|]. by rewrite count_kind_app, C1, C2.
  - exists (es1 ++ es2)%list. split; [done|]. by rewrite count_kind_app, C1, C2.
Qed.

Lemma handler_events_no_completion (logs : list (Level * logcall)) :
  count_kind CompletionRecord (handler_events logs) = 0%nat.
Proof. induction logs as [|l logs IH]; [done|]. exact IH. Qed.

Lemma hook_errors_no_completion (func : option Hook) (data : value)
    (arg : option atom) :
  count_kind CompletionRecord (hook_errors func data arg) = 0%nat.
Proof.
  unfold hook_errors. destruct func as [f|]; [|done].
  by destruct (f data arg).
Qed.

(** ** One request, end to end *)

(** Once the request phase has returned, the request runs to its
    completion record: the chain settles, the callback is queued, the
    transport finishes, and only then the callback writes the record. *)
Lemma serve_after_request_phase (opts : Opts) (this : ctxArg) (next : Handler)
    (t_start t_finish : Z) (f : Ctx -> Ctx) (w w1 : World) (cx' : Ctx)
    (logs : list (Level * logcall)) (settled : option atom) (lg : Logger) :
  pending w = [] ->
  request_phase opts this w = (w1, Normal tt) ->
  next (ctx w1) = (cx', logs, settled) ->
  log (f cx') = Some lg ->
  let err := captured settled in
  let d0 := Obj (responseData_base opts (f cx') t_start err t_finish) in
  let d1 := hook_result (updateLogFields opts) d0 None in
  let d2 := completion_payload opts (f cx') t_start err t_finish in
  serve opts this next t_start f t_finish w
  = (mkWorld (clear_log (f cx'))
       (history w1 ++ handler_events logs
        ++ [HandlerSettled settled; CallbackRegistered; TransportFinished]
        ++ hook_errors (updateLogFields opts) d0 None
        ++ hook_errors (updateResponseLogFields opts) d1 (err_arg err)
        ++ [Logged CompletionRecord (levelFn_of opts (f cx') err)
              (Call2 d2 (formatResponseMessage_of opts (f cx') d2))])
       [],
     if truthy err then Thrown err else Normal tt).
Proof.
  intros Hpend Hreq Hnext Hlog err d0 d1 d2.
  assert (Hpend1 : pending w1 = []).
  { destruct (request_phase_frame opts this w) as (es & Hes & _).
    rewrite Hreq in Hes; simpl in Hes. by rewrite Hes. }
  unfold serve, requestLogger, bind. rewrite Hreq.
  rewrite (handler_phase_settled opts next t_start w1 cx' logs settled Hnext).
  rewrite Hpend1. unfold transport_finish, upstream; simpl. unfold fire.
  erewrite onResponseFinished_attached by (simpl; exact Hlog).
  simpl. f_equal. f_equal. by rewrite <- !app_assoc.
Qed.

(** When the runner returns, it returns [hook_result] and has written
    [hook_errors]. *)
Lemma updateFields_returned (c : ctxArg) (func : option Hook) (data : value)
    (err : atom) (w w' : World) (d : value) :
  updateFields c func data err w = (w', Normal d) ->
  d = hook_result func data (err_arg err)
  /\ w' = logged w (hook_errors func data (err_arg err)).
Proof.
  unfold updateFields, hook_result, hook_errors.
  destruct func as [f|].
  - destruct (f data (err_arg err)) as [after r|after e].
    + intros [= <- <-]. by rewrite logged_nil.
    + unfold bind, log_call. destruct c; [done|].
      unfold bind, get_ctx, record_event, throw.
      destruct (log (ctx w)); [|done]. by intros [= <- <-].
  - intros [= <- <-]. by rewrite logged_nil.
Qed.

(** A request phase that returned has written the request record, last,
    after the error records of its hooks. *)
Lemma request_phase_returned (opts : Opts) (this : ctxArg) (w w1 : World) :
  request_phase opts this w = (w1, Normal tt) ->
  let d0 := Obj {[ "req" := req (ctx w) ]} in
  let d1 := hook_result (updateLogFields opts) d0 None in
  w1 = logged w
         (hook_errors (updateLogFields opts) d0 None
          ++ hook_errors (updateRequestLogFields opts) d1 None
          ++ [Logged RequestRecord Info
                (Call2 (request_payload opts (ctx w))
                   (formatRequestMessage_of opts (ctx w)
                      (request_payload opts (ctx w))))]).
Proof.
  intros H d0 d1. subst d0 d1. revert H.
  unfold request_phase, bind, get_ctx.
  destruct (updateFields this (updateLogFields opts)
              (Obj {[ "req" := req (ctx w) ]}) Undefined w)
    as [wa [da|ea]] eqn:Ha; [|done].
  apply updateFields_returned in Ha as [-> ->].
  cbn [err_arg truthy].
  destruct (updateFields this (updateRequestLogFields opts) _ Undefined _)
    as [wb [db|eb]] eqn:Hb; [|done].
  apply updateFields_returned in Hb as [-> ->].
  cbn [err_arg truthy].
  unfold log_call, bind, get_ctx, record_event, throw; simpl.
  destruct (log (ctx w)); [|done].
  intros [= <-]. unfold logged; simpl. by rewrite <- !app_assoc.
Qed.

(** The order of a request whose request phase has returned and whose
    response is finished after the middleware has returned: the history
    holds the request record, then the settling of the chain, then the end
    of the response, and after these the one completion record. *)
Lemma serve_completion_order (opts : Opts) (this : ctxArg) (next : Handler)
    (t_start t_finish : Z) (f : Ctx -> Ctx) (w w1 : World) (cx' : Ctx)
    (logs : list (Level * logcall)) (settled : option atom) (lg : Logger) :
  pending w = [] ->
  request_phase opts this w = (w1, Normal tt) ->
  next (ctx w1) = (cx', logs, settled) ->
  log (f cx') = Some lg ->
  exists h_req start h_chain h_hooks completion,
    history (fst (serve opts this next t_start f t_finish w))
    = history w ++ h_req ++ [start] ++ h_chain
      ++ [HandlerSettled settled; CallbackRegistered; TransportFinished]
      ++ h_hooks ++ [completion]
    /\ is_kind RequestRecord start = true
    /\ is_kind CompletionRecord completion = true
    /\ count_kind CompletionRecord (h_req ++ [start] ++ h_chain ++ h_hooks)
       = 0%nat
    /\ count_kind CompletionRecord
         (history (fst (requestLogger opts this next t_start w)))
       = count_kind CompletionRecord (history w).
Proof.
  intros Hpend Hreq Hnext Hlog.
  rewrite (serve_after_request_phase opts this next t_start t_finish f w w1
             cx' logs settled lg Hpend Hreq Hnext Hlog).
  pose proof (request_phase_returned opts this w w1 Hreq) as Hw1.
  simpl in Hw1.
  set (es := hook_errors (updateLogFields opts)
               (Obj {[ "req" := req (ctx w) ]}) None
             ++ hook_errors (updateRequestLogFields opts)
                  (hook_result (updateLogFields opts)
                     (Obj {[ "req" := req (ctx w) ]}) None) None).
  assert (Ces : count_kind CompletionRecord es = 0%nat).
  { subst es. by rewrite count_kind_app, !hook_errors_no_completion. }
  rewrite app_assoc in Hw1. fold es in Hw1. subst w1.
  set (err := captured settled).
  set (d0 := Obj (responseData_base opts (f cx') t_start err t_finish)).
  set (d1 := hook_result (updateLogFields opts) d0 None).
  exists es, (Logged RequestRecord Info
                (Call2 (request_payload opts (ctx w))
                   (formatRequestMessage_of opts (ctx w)
                      (request_payload opts (ctx w))))),
    (handler_events logs),
    (hook_errors (updateLogFields opts) d0 None
     ++ hook_errors (updateResponseLogFields opts) d1 (err_arg err))%list.
  eexists.
  split; [simpl; rewrite <- !app_assoc; reflexivity|].
  split; [done|]. split; [done|]. split.
  - rewrite !count_kind_app, Ces, handler_events_no_completion,
      !hook_errors_no_completion. done.
  - unfold requestLogger, bind. rewrite Hreq.
    rewrite (handler_phase_settled opts next t_start _ cx' logs settled Hnext).
    simpl. rewrite !count_kind_app, Ces, handler_events_no_completion.
    simpl. unfold count_kind; simpl. lia.
Qed.

(** For every request, whatever its hooks do: the middleware itself writes
    no completion record (it can only queue one callback), and the end of
    the response adds at most one. *)
Lemma requestLogger_defers_completion (opts : Opts) (this : ctxArg)
    (next : Handler) (now : Z) (w : World) :
  let w' := fst (requestLogger opts this next now w) in
  count_kind CompletionRecord (history w')
  = count_kind CompletionRecord (history w)
  /\ (pending w' = pending w
      \/ exists err, pending w' = pending w ++ [mkCallback opts now err]).
Proof.
  unfold requestLogger, bind.
  destruct (request_phase_frame opts this w) as (es & Hes & Ces).
  destruct (request_phase opts this w) as [w1 [[]|e]]; simpl in Hes; subst w1.
  - destruct (next (ctx (logged w es))) as [[cx' logs] settled] eqn:Hnext.
    rewrite (handler_phase_settled opts next now _ cx' logs settled Hnext).
    simpl. split; [|by right; eexists].
    rewrite !count_kind_app, Ces, handler_events_no_completion.
    unfold count_kind at 2; simpl. lia.
  - simpl. split; [|by left]. rewrite count_kind_app, Ces. lia.
Qed.

Lemma fire_at_most_one_completion (now : Z) (w : World) (cb : Callback) :
  (count_kind CompletionRecord (history (fire now w cb))
   <= S (count_kind CompletionRecord (history w)))%nat.
Proof.
  unfold fire. destruct (log (ctx w)) as [lg|] eqn:Hlog.
  - rewrite (onResponseFinished_attached cb now w lg Hlog). simpl.
    rewrite !count_kind_app, !hook_errors_no_completion.
    unfold count_kind at 2; simpl. lia.
  - rewrite (onResponseFinished_detached cb now w Hlog). lia.
Qed.

Lemma serve_at_most_one_completion (opts : Opts) (this : ctxArg)
    (next : Handler) (t_start t_finish : Z) (f : Ctx -> Ctx) (w : World) :
  pending w = [] ->
  (count_kind CompletionRecord
     (history (fst (serve opts this next t_start f t_finish w)))
   <= S (count_kind CompletionRecord (history w)))%nat.
Proof.
  intros Hpend. unfold serve.
  destruct (requestLogger_defers_completion opts this next t_start w)
    as [Hcount Hqueue].
  destruct (requestLogger opts this next t_start w) as [w1 r].
  simpl in Hcount, Hqueue. simpl.
  unfold transport_finish, upstream; simpl.
  rewrite Hpend in Hqueue. destruct Hqueue as [-> | [err ->]]; simpl.
  - rewrite count_kind_app, Hcount. unfold count_kind at 2; simpl. lia.
  - etransitivity; [apply fire_at_most_one_completion|].
    simpl. rewrite count_kind_app, Hcount. unfold count_kind at 2; simpl. lia.
Qed.

(** ** C1 and C3: a hook that throws in the request phase *)

(** With [undefined] as receiver, the first request-phase hook that throws
    ends the request phase with the [TypeError] of the failed report,
    before anything is written. *)
Lemma request_phase_undefined_receiver (opts : Opts) (w : World) :
  let d0 := Obj {[ "req" := req (ctx w) ]} in
  hook_throws (updateLogFields opts) d0 None = true
  \/ (hook_throws (updateLogFields opts) d0 None = false
      /\ hook_throws (updateRequestLogFields opts)
           (hook_result (updateLogFields opts) d0 None) None = true) ->
  request_phase opts CtxUndefined w = (w, Thrown undefined_has_no_log).
Proof.
  intros d0 H. subst d0. unfold request_phase, bind, get_ctx.
  destruct H as [H|[H0 H]].
  - by rewrite (updateFields_undefined _ _ Undefined w H).
  - rewrite (updateFields_quiet CtxUndefined _ _ Undefined w H0).
    cbn [err_arg truthy].
    by rewrite (updateFields_undefined _ _ Undefined w H).
Qed.

(** C1.  The runner catches what a hook throws and reports it through
    [ctx.log.error]; in the request phase of [requestLogger] the [ctx] it
    is given is [this], which is [undefined] when Koa calls the middleware.
    There the report itself raises a [TypeError], which leaves the runner
    and the middleware: no error record, no request record, the chain is
    not run and no completion callback is queued.  The claim fails at this
    input. *)
Theorem requestLogger_request_hook_throw_escapes (opts : Opts) (next : Handler)
    (now : Z) (w : World) :
  let d0 := Obj {[ "req" := req (ctx w) ]} in
  hook_throws (updateLogFields opts) d0 None = true
  \/ (hook_throws (updateLogFields opts) d0 None = false
      /\ hook_throws (updateRequestLogFields opts)
           (hook_result (updateLogFields opts) d0 None) None = true) ->
  requestLogger opts CtxUndefined next now w
  = (w, Thrown undefined_has_no_log).
Proof.
  intros d0 H. unfold requestLogger, bind.
  by rewrite (request_phase_undefined_receiver opts w H).
Qed.

Lemma requestLogger_request_hook_throw_escapes_witness :
  requestLogger clumsy_request_opts CtxUndefined helloWorld 1000 world0
  = (world0, Thrown undefined_has_no_log).
Proof.
  apply (requestLogger_request_hook_throw_escapes clumsy_request_opts
           helloWorld 1000 world0).
  left. reflexivity.
Defined.

(** C3.  Same input as C1: the response of such a request is still sent,
    but nothing was queued on the transport, so the history of the whole
    request holds neither a request record nor a completion record, where
    the claim promises exactly one completion record for every request. *)
Theorem serve_request_hook_throw_no_completion (opts : Opts) (next : Handler)
    (t_start t_finish : Z) (f : Ctx -> Ctx) (w : World) :
  pending w = [] ->
  hook_throws (updateLogFields opts) (Obj {[ "req" := req (ctx w) ]}) None
  = true ->
  serve opts CtxUndefined next t_start f t_finish w
  = (mkWorld (f (ctx w)) (history w ++ [TransportFinished]) [],
     Thrown undefined_has_no_log)
  /\ count_kind CompletionRecord
       (history (fst (serve opts CtxUndefined next t_start f t_finish w)))
     = count_kind CompletionRecord (history w).
Proof.
  intros Hpend H.
  assert (Hs : serve opts CtxUndefined next t_start f t_finish w
               = (mkWorld (f (ctx w)) (history w ++ [TransportFinished]) [],
                  Thrown undefined_has_no_log)).
  { unfold serve, requestLogger, bind.
    rewrite (request_phase_undefined_receiver opts w (or_introl H)).
    unfold transport_finish, upstream; simpl. by rewrite Hpend. }
  split; [exact Hs|]. rewrite Hs; simpl.
  rewrite count_kind_app. unfold count_kind at 2; simpl. lia.
Qed.

Lemma serve_request_hook_throw_no_completion_witness :
  count_kind CompletionRecord
    (history (fst (serve clumsy_request_opts CtxUndefined helloWorld 1000
                     (fun cx => cx) 1005 world0)))
  = 0%nat.
Proof.
  refine (proj2 (serve_request_hook_throw_no_completion clumsy_request_opts
                   helloWorld 1000 1005 (fun cx => cx) world0 _ _));
    reflexivity.
Defined.

(** ** C2 and C10: what the handler chain throws *)

(** C2, as stated, fails: a chain that throws the falsy value [0] is not
    rethrown to the caller, and its completion record has no [err]. *)
Lemma falsy_throw_is_swallowed :
  let r := serve noOpts CtxObject (throwing (Num 0)) 1000 (fun cx => cx) 1005
             world0 in
  In (HandlerSettled (Some (Num 0))) (history (fst r))
  /\ snd r = Normal tt
  /\ map (fun v => field v "err") (payloads CompletionRecord (history (fst r)))
     = [None].
Proof. vm_compute. repeat split; auto. Qed.

(** C2, amended.  When the chain throws a truthy value [e], the middleware
    queues the completion callback and then rethrows [e] itself; when the
    response is finished the completion record is built from fields whose
    [err] is [e] (the duration field not being named [err]), passed through
    the global hook and then through the response-specific hook called with
    [e] as its second argument. *)
Theorem requestLogger_rethrows_truthy (opts : Opts) (this : ctxArg)
    (next : Handler) (t_start t_finish : Z) (f : Ctx -> Ctx) (w w1 : World)
    (cx' : Ctx) (logs : list (Level * logcall)) (e : atom) (lg : Logger) :
  pending w = [] ->
  request_phase opts this w = (w1, Normal tt) ->
  next (ctx w1) = (cx', logs, Some e) ->
  truthy e = true ->
  log (f cx') = Some lg ->
  durationField_of opts <> "err" ->
  let base := responseData_base opts (f cx') t_start e t_finish in
  let d1 := hook_result (updateLogFields opts) (Obj base) None in
  let payload := hook_result (updateResponseLogFields opts) d1 (Some e) in
  requestLogger opts this next t_start w
  = (mkWorld cx'
       (history w1 ++ handler_events logs
        ++ [HandlerSettled (Some e); CallbackRegistered])
       [mkCallback opts t_start e],
     Thrown e)
  /\ snd (serve opts this next t_start f t_finish w) = Thrown e
  /\ base !! "err" = Some e
  /\ (exists h,
        history (fst (serve opts this next t_start f t_finish w))
        = h ++ [Logged CompletionRecord (levelFn_of opts (f cx') e)
                  (Call2 payload
                     (formatResponseMessage_of opts (f cx') payload))])
  /\ (updateLogFields opts = None -> updateResponseLogFields opts = None ->
      field payload "err" = Some e).
Proof.
  intros Hpend Hreq Hnext He Hlog Hdur base d1 payload.
  assert (Hpend1 : pending w1 = []).
  { destruct (request_phase_frame opts this w) as (es & Hes & _).
    rewrite Hreq in Hes; simpl in Hes. by rewrite Hes. }
  assert (Hbase : base !! "err" = Some e).
  { subst base. unfold responseData_base, assign_duration. rewrite He.
    destruct (String.eqb (durationField_of opts) "__proto__");
      [apply lookup_insert_eq|].
    rewrite lookup_insert_ne by done. apply lookup_insert_eq. }
  split; [|split; [|split; [exact Hbase|split]]].
  - unfold requestLogger, bind. rewrite Hreq.
    rewrite (handler_phase_settled opts next t_start w1 cx' logs (Some e) Hnext).
    simpl. by rewrite He, Hpend1.
  - rewrite (serve_after_request_phase opts this next t_start t_finish f w w1
               cx' logs (Some e) lg Hpend Hreq Hnext Hlog).
    simpl. by rewrite He.
  - rewrite (serve_after_request_phase opts this next t_start t_finish f w w1
               cx' logs (Some e) lg Hpend Hreq Hnext Hlog).
    cbn [fst history captured]. unfold completion_payload, err_arg.
    rewrite He. eexists. rewrite !app_assoc. reflexivity.
  - intros Hg Hrs. subst payload d1. rewrite Hg, Hrs. exact Hbase.
Qed.

Lemma requestLogger_rethrows_truthy_witness :
  snd (serve test_opts CtxObject (throwing uh_oh) 1000 respond500 1005 world0)
  = Thrown uh_oh.
Proof.
  refine (proj1 (proj2
    (requestLogger_rethrows_truthy test_opts CtxObject (throwing uh_oh)
       1000 1005 respond500 world0
       (fst (request_phase test_opts CtxObject world0))
       ctx0 [] uh_oh (Bunyan "test") _ _ _ _ _ _))).
  - reflexivity.
  - vm_compute. reflexivity.
  - reflexivity.
  - reflexivity.
  - reflexivity.
  - vm_compute. intros H. discriminate H.
Defined.

Lemma err_arg_falsy (v : atom) : truthy v = false -> err_arg v = None.
Proof. unfold err_arg. by intros ->. Qed.

Lemma responseData_base_falsy (opts : Opts) (cx : Ctx) (startTime : Z)
    (v : atom) (now : Z) :
  truthy v = false ->
  responseData_base opts cx startTime v now
  = assign_duration opts {[ "req" := req cx; "res" := res cx ]}
      (now - startTime).
Proof. unfold responseData_base. by intros ->. Qed.

Lemma default_levelFn_ignores_err (cx : Ctx) (e e' : atom) :
  default_levelFn cx e = default_levelFn cx e'.
Proof. reflexivity. Qed.

(** C10, as stated, fails: [levelFn] is called with the thrown value
    itself, so with a [levelFn] that looks at it the request does not
    complete as after a normal return.  Here the chain throws [null]: the
    completion record is written at fatal, where a chain that returns gives
    info. *)
Lemma falsy_throw_changes_level :
  levels CompletionRecord
    (history (fst (serve level_opts CtxUndefined (throwing Null) 1000
                     (fun cx => cx) 1005 world0)))
  = [Fatal]
  /\ levels CompletionRecord
       (history (fst (serve level_opts CtxUndefined helloWorld 1000
                        (fun cx => cx) 1005 world0)))
     = [Info].
Proof. vm_compute. by split. Qed.

(** C10, amended.  A falsy value thrown by the chain is treated as no
    error: the middleware returns normally after queuing the callback; the
    completion fields carry no [err] of it; the response-specific hook is
    called with the data alone; the completion record carries the same
    fields as after a normal return.  The callback does exactly what it
    does after a normal return except that [levelFn] is handed the thrown
    value, so the two coincide whenever [levelFn] gives both the same
    level, as the default [levelFn] always does. *)
Theorem falsy_throw_treated_as_no_error (opts : Opts) (this : ctxArg)
    (next : Handler) (now : Z) (w w1 : World) (cx' : Ctx)
    (logs : list (Level * logcall)) (v : atom) :
  request_phase opts this w = (w1, Normal tt) ->
  next (ctx w1) = (cx', logs, Some v) ->
  truthy v = false ->
  requestLogger opts this next now w
  = (mkWorld cx'
       (history w1 ++ handler_events logs
        ++ [HandlerSettled (Some v); CallbackRegistered])
       (pending w1 ++ [mkCallback opts now v]),
     Normal tt)
  /\ (forall cx t,
        responseData_base opts cx now v t
        = assign_duration opts {[ "req" := req cx; "res" := res cx ]} (t - now)
        /\ responseData_base opts cx now v t
           = responseData_base opts cx now Undefined t)
  /\ (forall c func data w',
        updateFields c func data v w' = updateFields c func data Undefined w')
  /\ (forall cx t,
        completion_payload opts cx now v t
        = completion_payload opts cx now Undefined t)
  /\ (forall t w',
        onResponseFinished (mkCallback opts now v) t w'
        = onResponseFinished
            (mkCallback (with_levelFn (fun cx _ => levelFn_of opts cx v) opts)
               now Undefined) t w')
  /\ (forall t w',
        levelFn_of opts (ctx w') v = levelFn_of opts (ctx w') Undefined ->
        onResponseFinished (mkCallback opts now v) t w'
        = onResponseFinished (mkCallback opts now Undefined) t w')
  /\ (levelFn opts = None ->
      forall t w',
        onResponseFinished (mkCallback opts now v) t w'
        = onResponseFinished (mkCallback opts now Undefined) t w').
Proof.
  intros Hreq Hnext Hv.
  assert (Hupd : forall c func data w',
             updateFields c func data v w'
             = updateFields c func data Undefined w').
  { intros. unfold updateFields. by rewrite (err_arg_falsy v Hv). }
  assert (Hbase : forall cx t,
             responseData_base opts cx now v t
             = responseData_base opts cx now Undefined t).
  { intros. rewrite (responseData_base_falsy opts cx now v t Hv).
    by rewrite (responseData_base_falsy opts cx now Undefined t eq_refl). }
  assert (Hfin : forall t w',
             levelFn_of opts (ctx w') v = levelFn_of opts (ctx w') Undefined ->
             onResponseFinished (mkCallback opts now v) t w'
             = onResponseFinished (mkCallback opts now Undefined) t w').
  { intros t w' Hlvl. unfold onResponseFinished, bind, get_ctx.
    cbn [cb_opts cb_err cb_startTime]. rewrite Hbase.
    destruct (updateFields CtxObject (updateLogFields opts) _ Undefined w')
      as [wa [da|ea]]; [|done].
    rewrite Hupd, Hlvl. done. }
  split; [|split; [|split; [|split; [|split; [|split]]]]].
  - unfold requestLogger, bind. rewrite Hreq.
    rewrite (handler_phase_settled opts next now w1 cx' logs (Some v) Hnext).
    simpl. by rewrite Hv.
  - intros cx t. split; [by apply responseData_base_falsy|apply Hbase].
  - exact Hupd.
  - intros. unfold completion_payload.
    by rewrite Hbase, (err_arg_falsy v Hv).
  - intros t w'. unfold onResponseFinished, bind, get_ctx.
    cbn [cb_opts cb_err cb_startTime]. rewrite Hbase.
    change (responseData_base
              (with_levelFn (fun cx _ => levelFn_of opts cx v) opts))
      with (responseData_base opts).
    change (updateLogFields
              (with_levelFn (fun cx _ => levelFn_of opts cx v) opts))
      with (updateLogFields opts).
    change (updateResponseLogFields
              (with_levelFn (fun cx _ => levelFn_of opts cx v) opts))
      with (updateResponseLogFields opts).
    destruct (updateFields CtxObject (updateLogFields opts) _ Undefined w')
      as [wa [da|ea]]; [|done].
    rewrite Hupd. reflexivity.
  - exact Hfin.
  - intros Hdefault t w'. apply Hfin. unfold levelFn_of. by rewrite Hdefault.
Qed.

Lemma falsy_throw_treated_as_no_error_witness :
  snd (requestLogger noOpts CtxUndefined (throwing Null) 1000 world0)
  = Normal tt.
Proof.
  pose proof (falsy_throw_treated_as_no_error noOpts CtxUndefined
                (throwing Null) 1000 world0
                (fst (request_phase noOpts CtxUndefined world0))
                ctx0 [] Null eq_refl eq_refl eq_refl) as [H _].
  by rewrite H.
Defined.

(** ** C9: the duration of a request *)




(** ** timeContext: C5, C6 and C7 *)

Lemma append_assoc_string (s t u : string) : (s +:+ t) +:+ u = s +:+ (t +:+ u).
Proof.
  induction s as [|c s IH]; [done|].
  change (String c ((s +:+ t) +:+ u) = String c (s +:+ (t +:+ u))).
  by rewrite IH.
Qed.

Lemma set_startTime_spec (label : string) (v : slot) (w : World) :
  TimeContext.set_startTime label v w
  = (mkWorld
       (with_startTimes
          (assign_startTime (_timeContextStartTimes (ctx w)) label v) (ctx w))
       (history w) (pending w),
     Normal tt).
Proof. reflexivity. Qed.

(** Reading and writing an own property of the table. *)
Lemma get_startTime_own (st : StartTimes) (label : string) (v : slot) :
  own st !! label = Some v ->
  get_startTime st label
  = match v with Started t => ENumber t | Cleared => ENull end.
Proof. unfold get_startTime. by intros ->. Qed.

Lemma assign_startTime_own (st : StartTimes) (label : string) (v v' : slot) :
  own st !! label = Some v ->
  assign_startTime st label v'
  = mkStartTimes (<[label := v']> (own st)) (inherits st).
Proof. unfold assign_startTime. by intros ->. Qed.

(** [time] on a label whose entry is falsy: no record. *)
Lemma time_fresh (label : string) (now : Z) (w : World) :
  entry_truthy (get_startTime (_timeContextStartTimes (ctx w)) label) = false ->
  TimeContext.time label now w
  = (mkWorld
       (with_startTimes
          (assign_startTime (_timeContextStartTimes (ctx w)) label
             (Started now)) (ctx w))
       (history w) (pending w),
     Normal tt).
Proof.
  intros H. unfold TimeContext.time, bind, get_ctx. by rewrite H.
Qed.

(** [timeEnd] on a label whose entry is falsy: one warning, nothing else. *)
Lemma timeEnd_falsy (opts : TimeContext.Opts) (label : string) (now : Z)
    (w : World) (lg : Logger) :
  log (ctx w) = Some lg ->
  entry_truthy (get_startTime (_timeContextStartTimes (ctx w)) label) = false ->
  TimeContext.timeEnd opts label now w
  = (logged w
       [Logged TimerWarning Warn
          (CallFmt "timeEnd() called without time() for label %s" label)],
     Normal tt).
Proof.
  intros Hlog H. unfold TimeContext.timeEnd, bind, get_ctx. rewrite H.
  cbn [negb]. by rewrite (log_call_attached _ _ _ w lg Hlog).
Qed.

(** [timeEnd] on a label whose entry is truthy: the duration record. *)
Lemma timeEnd_truthy (opts : TimeContext.Opts) (label : string) (now : Z)
    (w : World) (lg : Logger) :
  log (ctx w) = Some lg ->
  let st := _timeContextStartTimes (ctx w) in
  entry_truthy (get_startTime st label) = true ->
  let fields :=
    Obj (TimeContext.timer_fields label
           (minus_entry now (get_startTime st label))) in
  TimeContext.timeEnd opts label now w
  = (mkWorld (with_startTimes (assign_startTime st label Cleared) (ctx w))
       (history w
        ++ hook_errors (TimeContext.updateLogFields opts) fields None
        ++ [Logged TimerRecord (TimeContext.logLevel_of opts)
              (Call1 (hook_result (TimeContext.updateLogFields opts) fields
                        None))])
       (pending w),
     Normal tt).
Proof.
  intros Hlog st H fields. subst st fields.
  unfold TimeContext.timeEnd, bind, get_ctx. rewrite H. cbn [negb].
  rewrite (updateFields_attached _ _ _ w lg Hlog).
  rewrite (log_call_attached _ _ _ (logged w _) lg Hlog).
  rewrite set_startTime_spec.
  unfold logged; simpl. by rewrite <- !app_assoc.
Qed.

Lemma count_kind_hook_errors (k : kind) (func : option Hook) (data : value)
    (arg : option atom) :
  k <> HookErrorRecord -> count_kind k (hook_errors func data arg) = 0%nat.
Proof.
  intros Hk. unfold hook_errors. destruct func as [f|]; [|done].
  destruct (f data arg); [done|]. by destruct k.
Qed.

(** C5.  [time] tests the entry for truthiness, so a start reading of 0
    counts as no entry: the label has an unfinished entry, and yet the next
    [time] for it writes no warning (it does overwrite the entry).  The
    claim fails at this input. *)
Theorem time_zero_start_not_seen (label : string) (now : Z) (w : World) :
  own (_timeContextStartTimes (ctx w)) !! label = Some (Started 0) ->
  TimeContext.time label now w
  = (mkWorld
       (with_startTimes
          (mkStartTimes
             (<[label := Started now]> (own (_timeContextStartTimes (ctx w))))
             (inherits (_timeContextStartTimes (ctx w))))
          (ctx w))
       (history w) (pending w),
     Normal tt).
Proof.
  intros Hentry. rewrite time_fresh.
  - by rewrite (assign_startTime_own _ _ _ _ Hentry).
  - by rewrite (get_startTime_own _ _ _ Hentry).
Qed.

Lemma time_zero_start_not_seen_witness :
  let w1 := fst (TimeContext.time "x" 0 world0) in
  own (_timeContextStartTimes (ctx w1)) !! "x" = Some (Started 0)
  /\ history (fst (TimeContext.time "x" 5 w1)) = []
  /\ own (_timeContextStartTimes (ctx (fst (TimeContext.time "x" 5 w1)))) !! "x"
     = Some (Started 5).
Proof.
  cbn zeta.
  assert (Hentry : own (_timeContextStartTimes
                          (ctx (fst (TimeContext.time "x" 0 world0)))) !! "x"
                   = Some (Started 0)) by reflexivity.
  rewrite (time_zero_start_not_seen "x" 5 _ Hentry).
  split; [exact Hentry|]. split; reflexivity.
Defined.

(** Apart from a start reading of 0 the warning is given: on a context
    with its logger, [time(label)] called while the table holds for the
    label an entry with a non-zero start reading writes one warn-level
    record whose message is the fixed text followed by the label, then
    overwrites the entry with the current reading; and [time] returns
    normally whatever the table holds. *)
Theorem time_reused_label_warns (label : string) (now t0 : Z) (w : World)
    (lg : Logger) :
  log (ctx w) = Some lg ->
  own (_timeContextStartTimes (ctx w)) !! label = Some (Started t0) ->
  t0 <> 0 ->
  TimeContext.time label now w
  = (mkWorld
       (with_startTimes
          (mkStartTimes
             (<[label := Started now]> (own (_timeContextStartTimes (ctx w))))
             (inherits (_timeContextStartTimes (ctx w))))
          (ctx w))
       (history w
        ++ [Logged TimerWarning Warn
              (CallFmt "time() called for previously used label %s" label)])
       (pending w),
     Normal tt)
  /\ format1 "time() called for previously used label %s" label
     = "time() called for previously used label " +:+ label
  /\ (forall l t, snd (TimeContext.time l t w) = Normal tt).
Proof.
  intros Hlog Hentry Ht0. split; [|split].
  - unfold TimeContext.time, bind, get_ctx.
    rewrite (get_startTime_own _ _ _ Hentry). cbn [entry_truthy].
    destruct (Z.eqb_spec t0 0) as [|_]; [done|]. cbn [negb].
    rewrite (log_call_attached _ _ _ w lg Hlog).
    rewrite set_startTime_spec. cbn [ctx logged].
    by rewrite (assign_startTime_own _ _ _ _ Hentry).
  - apply format1_time.
  - intros l t. unfold TimeContext.time, bind, get_ctx.
    destruct (entry_truthy (get_startTime (_timeContextStartTimes (ctx w)) l));
      [|done].
    by rewrite (log_call_attached _ _ _ w lg Hlog).
Qed.

Lemma time_reused_label_warns_witness :
  history (fst (TimeContext.time "x" 5 (fst (TimeContext.time "x" 1 world0))))
  = [Logged TimerWarning Warn
       (CallFmt "time() called for previously used label %s" "x")].
Proof.
  assert (Hclock : (1 <> 0)%Z) by lia.
  pose proof (time_reused_label_warns "x" 5 1
                (fst (TimeContext.time "x" 1 world0)) (Bunyan "test")
                eq_refl eq_refl Hclock) as [H _].
  by rewrite H.
Defined.

(** X16.  For a label that names nothing inherited (or on a table without
    prototype): no entry, or a finished one, gives one warning, no duration
    record, and the table is left alone. *)
Lemma timeEnd_without_time_warns (opts : TimeContext.Opts) (label : string)
    (now : Z) (w : World) (lg : Logger) :
  log (ctx w) = Some lg ->
  let st := _timeContextStartTimes (ctx w) in
  (own st !! label = None /\ inherits st && inherited_name label = false)
  \/ own st !! label = Some Cleared ->
  TimeContext.timeEnd opts label now w
  = (logged w
       [Logged TimerWarning Warn
          (CallFmt "timeEnd() called without time() for label %s" label)],
     Normal tt).
Proof.
  intros Hlog st Hentry. apply (timeEnd_falsy opts label now w lg Hlog).
  fold st. unfold get_startTime.
  by destruct Hentry as [[-> ->] | ->].
Qed.

(** C6.  The table is an object literal, so a label that names a property
    of [Object.prototype] reads as a truthy entry although [time] was never
    called for it: [timeEnd] then writes no warning but a duration record
    whose duration is [NaN], and stores [null] under the label.  The claim
    fails at such a label. *)
Theorem timeEnd_inherited_label_no_warning (opts : TimeContext.Opts)
    (label : string) (now : Z) (w : World) (lg : Logger) :
  log (ctx w) = Some lg ->
  let st := _timeContextStartTimes (ctx w) in
  own st !! label = None ->
  inherits st = true ->
  inherited_name label = true ->
  let fields := Obj (TimeContext.timer_fields label NotANumber) in
  let w' := fst (TimeContext.timeEnd opts label now w) in
  TimeContext.timeEnd opts label now w
  = (mkWorld (with_startTimes (assign_startTime st label Cleared) (ctx w))
       (history w
        ++ hook_errors (TimeContext.updateLogFields opts) fields None
        ++ [Logged TimerRecord (TimeContext.logLevel_of opts)
              (Call1 (hook_result (TimeContext.updateLogFields opts) fields
                        None))])
       (pending w),
     Normal tt)
  /\ count_kind TimerWarning (history w') = count_kind TimerWarning (history w)
  /\ count_kind TimerRecord (history w')
     = S (count_kind TimerRecord (history w)).
Proof.
  intros Hlog st Hown Hinh Hname fields w'.
  assert (Hget : get_startTime st label = EInherited).
  { unfold get_startTime. by rewrite Hown, Hinh, Hname. }
  assert (Hrun := timeEnd_truthy opts label now w lg Hlog).
  cbn zeta in Hrun. fold st in Hrun. rewrite Hget in Hrun.
  specialize (Hrun eq_refl). cbn [minus_entry] in Hrun. fold fields in Hrun.
  subst w'. rewrite Hrun. cbn [fst history].
  split; [done|]. rewrite !count_kind_app.
  rewrite !count_kind_hook_errors by done.
  split.
  - unfold count_kind at 2; simpl. lia.
  - assert (count_kind TimerRecord
              [Logged TimerRecord (TimeContext.logLevel_of opts)
                 (Call1 (hook_result (TimeContext.updateLogFields opts) fields
                           None))] = 1%nat) as -> by reflexivity.
    lia.
Qed.

Lemma timeEnd_inherited_label_no_warning_witness :
  let w' := fst (TimeContext.timeEnd (TimeContext.mkOpts None None)
                   "constructor" 12 world0) in
  count_kind TimerWarning (history w') = 0%nat
  /\ map (fun v => field v "duration") (payloads TimerRecord (history w'))
     = [Some NaN].
Proof.
  pose proof (timeEnd_inherited_label_no_warning
                (TimeContext.mkOpts None None) "constructor" 12 world0
                (Bunyan "test") eq_refl eq_refl eq_refl eq_refl) as (H & _ & _).
  cbn zeta. rewrite H. vm_compute. by split.
Defined.

(** C7.  [timeEnd] tests the entry for truthiness as well, so an entry
    whose start reading is 0 does not match: [timeEnd] takes the warning
    path, writes no duration record and leaves the entry in place.  The
    claim fails at this input. *)
Theorem timeEnd_zero_start_not_seen (opts : TimeContext.Opts) (label : string)
    (now : Z) (w : World) (lg : Logger) :
  log (ctx w) = Some lg ->
  own (_timeContextStartTimes (ctx w)) !! label = Some (Started 0) ->
  TimeContext.timeEnd opts label now w
  = (mkWorld (ctx w)
       (history w
        ++ [Logged TimerWarning Warn
              (CallFmt "timeEnd() called without time() for label %s" label)])
       (pending w),
     Normal tt).
Proof.
  intros Hlog Hentry. apply (timeEnd_falsy opts label now w lg Hlog).
  by rewrite (get_startTime_own _ _ _ Hentry).
Qed.

Lemma timeEnd_zero_start_not_seen_witness :
  let w1 := fst (TimeContext.time "foo" 0 world0) in
  let w2 := fst (TimeContext.timeEnd (TimeContext.mkOpts None None) "foo" 7 w1) in
  own (_timeContextStartTimes (ctx w1)) !! "foo" = Some (Started 0)
  /\ history w2
     = [Logged TimerWarning Warn
          (CallFmt "timeEnd() called without time() for label %s" "foo")]
  /\ own (_timeContextStartTimes (ctx w2)) !! "foo" = Some (Started 0).
Proof.
  cbn zeta.
  assert (Hentry : own (_timeContextStartTimes
                          (ctx (fst (TimeContext.time "foo" 0 world0))))
                     !! "foo" = Some (Started 0)) by reflexivity.
  rewrite (timeEnd_zero_start_not_seen (TimeContext.mkOpts None None) "foo" 7
             (fst (TimeContext.time "foo" 0 world0)) (Bunyan "test") eq_refl
             Hentry).
  split; [exact Hentry|]. split; [reflexivity|exact Hentry].
Defined.

(** Apart from a start reading of 0 the duration is reported: on a context
    with its logger, for a label whose entry in the table holds a non-zero
    start reading, [timeEnd(label)] takes the duration as the current
    reading minus the start reading, builds the fields [label], [duration]
    and [msg] (the label, a colon and a space, the duration in decimal,
    "ms"), runs the hook with replacement semantics, writes exactly one
    record at the configured level (default trace) with the resulting
    fields, and clears the entry by storing [null]; afterwards [timeEnd]
    for the label takes the warning path and [time] for it writes no
    warning. *)
Theorem timeEnd_emits_duration (opts : TimeContext.Opts) (label : string)
    (now t0 : Z) (w : World) (lg : Logger) :
  log (ctx w) = Some lg ->
  own (_timeContextStartTimes (ctx w)) !! label = Some (Started t0) ->
  t0 <> 0 ->
  let duration := now - t0 in
  let fields : gmap string atom :=
    {[ "label" := Str label;
       "duration" := Num duration;
       "msg" := Str (label +:+ ": " +:+ pretty duration +:+ "ms") ]} in
  let result :=
    hook_result (TimeContext.updateLogFields opts) (Obj fields) None in
  let w' :=
    mkWorld
      (with_startTimes
         (mkStartTimes
            (<[label := Cleared]> (own (_timeContextStartTimes (ctx w))))
            (inherits (_timeContextStartTimes (ctx w))))
         (ctx w))
      (history w
       ++ hook_errors (TimeContext.updateLogFields opts) (Obj fields) None
       ++ [Logged TimerRecord (TimeContext.logLevel_of opts) (Call1 result)])
      (pending w) in
  TimeContext.timeEnd opts label now w = (w', Normal tt)
  /\ count_kind TimerRecord (history w')
     = S (count_kind TimerRecord (history w))
  /\ (TimeContext.logLevel opts = None -> TimeContext.logLevel_of opts = Trace)
  /\ (forall t,
        TimeContext.timeEnd opts label t w'
        = (logged w'
             [Logged TimerWarning Warn
                (CallFmt "timeEnd() called without time() for label %s" label)],
           Normal tt))
  /\ (forall t, history (fst (TimeContext.time label t w')) = history w').
Proof.
  intros Hlog Hentry Ht0 duration fields result w'.
  assert (Hfields : TimeContext.timer_fields label (Finite duration) = fields).
  { subst fields. unfold TimeContext.timer_fields.
    cbn [number_atom number_string]. by rewrite !append_assoc_string. }
  assert (Hcleared :
            entry_truthy (get_startTime (_timeContextStartTimes (ctx w')) label)
            = false).
  { subst w'. cbn [ctx with_startTimes _timeContextStartTimes].
    unfold get_startTime. cbn [own]. by rewrite lookup_insert_eq. }
  assert (Htruthy :
            entry_truthy (get_startTime (_timeContextStartTimes (ctx w)) label)
            = true).
  { rewrite (get_startTime_own _ _ _ Hentry). cbn [entry_truthy].
    by destruct (Z.eqb_spec t0 0). }
  split; [|split; [|split; [|split]]].
  - rewrite (timeEnd_truthy opts label now w lg Hlog Htruthy).
    rewrite (get_startTime_own _ _ _ Hentry). cbn [minus_entry].
    fold duration. rewrite Hfields.
    by rewrite (assign_startTime_own _ _ _ _ Hentry).
  - subst w'. cbn [history]. rewrite !count_kind_app.
    rewrite count_kind_hook_errors by done.
    assert (count_kind TimerRecord
              [Logged TimerRecord (TimeContext.logLevel_of opts)
                 (Call1 result)] = 1%nat) as -> by reflexivity.
    lia.
  - unfold TimeContext.logLevel_of. by intros ->.
  - intros t. by apply (timeEnd_falsy opts label t w' lg).
  - intros t. by rewrite (time_fresh label t w' Hcleared).
Qed.

Lemma timeEnd_emits_duration_witness :
  count_kind TimerRecord
    (history (fst (TimeContext.timeEnd (TimeContext.mkOpts None None) "foo" 12
                     (fst (TimeContext.time "foo" 5 world0)))))
  = 1%nat.
Proof.
  assert (Hclock : (5 <> 0)%Z) by lia.
  pose proof (timeEnd_emits_duration (TimeContext.mkOpts None None) "foo" 12 5
                (fst (TimeContext.time "foo" 5 world0)) (Bunyan "test")
                eq_refl eq_refl Hclock) as [H _].
  by rewrite H.
Defined.

(** ** C8: how the hooks compose *)

Lemma payloads_app (k : kind) (h h' : list event) :
  payloads k (h ++ h') = payloads k h ++ payloads k h'.
Proof. unfold payloads. apply flat_map_app. Qed.

Lemma payloads_hook_errors (k : kind) (func : option Hook) (data : value)
    (arg : option atom) :
  k = RequestRecord \/ k = CompletionRecord ->
  payloads k (hook_errors func data arg) = [].
Proof.
  intros Hk. unfold hook_errors. destruct func as [f|]; [|done].
  destruct (f data arg); [done|]. by destruct Hk as [-> | ->].
Qed.

Lemma payloads_handler_events (k : kind) (logs : list (Level * logcall)) :
  k = RequestRecord \/ k = CompletionRecord ->
  payloads k (handler_events logs) = [].
Proof.
  intros Hk. induction logs as [|[lvl c] logs IH]; [done|].
  change (handler_events ((lvl, c) :: logs))
    with ([Logged HandlerRecord lvl c] ++ handler_events logs).
  rewrite payloads_app, IH, app_nil_r.
  destruct Hk as [-> | ->]; by destruct c.
Qed.

(** C8, as stated, fails on the hooks of the test suite: [baz1], set by the
    global hook, is missing from the request record, because the
    request-specific hook deletes it there; and it is back in the completion
    record, because the global hook sets it again and the request-specific
    hook does not run in that phase. *)
Lemma deleted_request_field_reappears :
  let r := serve test_opts CtxObject (throwing uh_oh) 1000 respond500 1005
             world0 in
  let global := hook_result (Some test_updateLogFields) in
  field (global (Obj {[ "req" := Object 1 ]}) None) "baz1" = Some (Str "fizz")
  /\ map (fun v => field v "baz1") (payloads RequestRecord (history (fst r)))
     = [None]
  /\ map (fun v => field v "baz1") (payloads CompletionRecord (history (fst r)))
     = [Some (Str "fizz")].
Proof. vm_compute. repeat split. Qed.

(** C8, amended.  For a request whose request phase returns: the request
    record carries the fields [req] passed through the global hook and then
    the request-specific hook; the completion record carries fresh fields
    ([req], [res], [err] if any, the duration) passed through the global
    hook and then the response-specific hook.  So a field the global hook
    sets is in either record unless that phase's own hook changes it; the
    request-specific hook has no effect at all on the completion record: a
    field only it sets is there only if the fresh fields or the
    response-phase hooks provide it, and a field it deletes is there
    whenever the response phase produces it. *)
Theorem hook_composition (opts : Opts) (this : ctxArg) (next : Handler)
    (t_start t_finish : Z) (f : Ctx -> Ctx) (w w1 : World) (cx' : Ctx)
    (logs : list (Level * logcall)) (settled : option atom) (lg : Logger) :
  pending w = [] ->
  request_phase opts this w = (w1, Normal tt) ->
  next (ctx w1) = (cx', logs, settled) ->
  log (f cx') = Some lg ->
  let final := fst (serve opts this next t_start f t_finish w) in
  let request := request_payload opts (ctx w) in
  let err := captured settled in
  let base := responseData_base opts (f cx') t_start err t_finish in
  let completion := completion_payload opts (f cx') t_start err t_finish in
  payloads RequestRecord (history final)
  = payloads RequestRecord (history w) ++ [request]
  /\ payloads CompletionRecord (history final)
     = payloads CompletionRecord (history w) ++ [completion]
  /\ (forall k v,
        hook_sets (updateLogFields opts) k v ->
        hook_keeps (updateRequestLogFields opts) k ->
        field request k = Some v)
  /\ (forall k v,
        hook_sets (updateLogFields opts) k v ->
        hook_keeps (updateResponseLogFields opts) k ->
        field completion k = Some v)
  /\ (forall k,
        hook_keeps (updateLogFields opts) k ->
        hook_keeps (updateResponseLogFields opts) k ->
        field completion k = base !! k)
  /\ (forall rq',
        completion_payload (with_updateRequestLogFields rq' opts) (f cx')
          t_start err t_finish
        = completion).
Proof.
  intros Hpend Hreq Hnext Hlog final request err base completion.
  assert (Hfinal : history final
            = history w1 ++ handler_events logs
              ++ [HandlerSettled settled; CallbackRegistered; TransportFinished]
              ++ hook_errors (updateLogFields opts) (Obj base) None
              ++ hook_errors (updateResponseLogFields opts)
                   (hook_result (updateLogFields opts) (Obj base) None)
                   (err_arg err)
              ++ [Logged CompletionRecord (levelFn_of opts (f cx') err)
                    (Call2 completion
                       (formatResponseMessage_of opts (f cx') completion))]).
  { subst final.
    by rewrite (serve_after_request_phase opts this next t_start t_finish f w
                  w1 cx' logs settled lg Hpend Hreq Hnext Hlog). }
  pose proof (request_phase_returned opts this w w1 Hreq) as Hw1.
  cbn zeta in Hw1.
  assert (Hh1 : history w1
            = history w
              ++ hook_errors (updateLogFields opts)
                   (Obj {[ "req" := req (ctx w) ]}) None
              ++ hook_errors (updateRequestLogFields opts)
                   (hook_result (updateLogFields opts)
                      (Obj {[ "req" := req (ctx w) ]}) None) None
              ++ [Logged RequestRecord Info
                    (Call2 request
                       (formatRequestMessage_of opts (ctx w) request))]).
  { by rewrite Hw1. }
  split; [|split; [|split; [|split; [|split]]]].
  - rewrite Hfinal, Hh1, !payloads_app.
    rewrite !payloads_hook_errors, payloads_handler_events by auto.
    simpl. by rewrite !app_nil_r.
  - rewrite Hfinal, Hh1, !payloads_app.
    rewrite !payloads_hook_errors, payloads_handler_events by auto.
    simpl. by rewrite !app_nil_r.
  - intros k v Hsets Hkeeps. subst request. unfold request_payload.
    rewrite Hkeeps. apply Hsets.
  - intros k v Hsets Hkeeps. subst completion. unfold completion_payload.
    rewrite Hkeeps. apply Hsets.
  - intros k Hg Hrs. subst completion. unfold completion_payload.
    by rewrite Hrs, Hg.
  - reflexivity.
Qed.

Lemma hook_composition_witness :
  payloads CompletionRecord
    (history (fst (serve test_opts CtxObject (throwing uh_oh) 1000 respond500
                     1005 world0)))
  = [completion_payload test_opts (respond500 ctx0) 1000 uh_oh 1005].
Proof.
  refine (proj1 (proj2
    (hook_composition test_opts CtxObject (throwing uh_oh) 1000 1005
       respond500 world0 (fst (request_phase test_opts CtxObject world0))
       ctx0 [] (Some uh_oh) (Bunyan "test") _ _ _ _)));
    reflexivity.
Defined.

(** The global hook of the test suite sets [foo]; its request- and
    response-specific hooks keep it. *)
Lemma test_hooks_foo :
  hook_sets (Some test_updateLogFields) "foo" (Str "bar")
  /\ hook_keeps (Some test_updateRequestLogFields) "foo"
  /\ hook_keeps (Some test_updateResponseLogFields) "foo".
Proof.
  split; [|split].
  - intros fields arg. simpl. by simplify_map_eq.
  - intros [a|fields] arg; simpl; [done|]. by simplify_map_eq.
  - intros [a|fields] [e|]; simpl; try done; by simplify_map_eq.
Qed.

(** * Further properties of the code *)

(** ** requestLogger and its completion callback *)

Lemma count_kind_handler_events (k : kind) (logs : list (Level * logcall)) :
  k <> HandlerRecord -> count_kind k (handler_events logs) = 0%nat.
Proof.
  intros Hk. induction logs as [|l logs IH]; [done|].
  change (handler_events (l :: logs))
    with ([Logged HandlerRecord (fst l) (snd l)] ++ handler_events logs).
  rewrite count_kind_app, IH. by destruct k.
Qed.

(** X2.  For every request, whatever the hooks and the chain do: the
    middleware call itself writes no completion record, and the end of the
    response adds at most one. *)
Theorem completion_only_after_finish (opts : Opts) (this : ctxArg)
    (next : Handler) (t_start t_finish : Z) (f : Ctx -> Ctx) (w : World) :
  pending w = [] ->
  count_kind CompletionRecord
    (history (fst (requestLogger opts this next t_start w)))
  = count_kind CompletionRecord (history w)
  /\ (count_kind CompletionRecord
        (history (fst (serve opts this next t_start f t_finish w)))
      <= S (count_kind CompletionRecord (history w)))%nat.
Proof.
  intros Hpend. split.
  - apply requestLogger_defers_completion.
  - by apply serve_at_most_one_completion.
Qed.

Lemma completion_only_after_finish_witness :
  count_kind CompletionRecord
    (history (fst (requestLogger clumsy_response_opts CtxUndefined helloWorld
                     1000 world0)))
  = 0%nat.
Proof.
  refine (proj1 (completion_only_after_finish clumsy_response_opts CtxUndefined
                   helloWorld 1000 1005 (fun cx => cx) world0 _)).
  reflexivity.
Defined.

(** X3.  Given the context object, with a logger on it, the runner
    contains a hook's failure: it writes exactly one error-level record
    carrying the thrown value and returns, with the data as the hook left
    it. *)
Theorem updateFields_isolates_hook_failure (f : Hook) (data : value)
    (err : atom) (w : World) (lg : Logger) (after : gmap string atom)
    (e : atom) :
  log (ctx w) = Some lg ->
  f data (err_arg err) = Throws after e ->
  updateFields CtxObject (Some f) data err w
  = (mkWorld (ctx w)
       (history w ++ [Logged HookErrorRecord Error (Call1 (Prim e))])
       (pending w),
     Normal (mutated data after)).
Proof.
  intros Hlog Hf.
  rewrite (updateFields_attached (Some f) data err w lg Hlog).
  unfold hook_errors, hook_result. by rewrite Hf.
Qed.

Lemma updateFields_isolates_hook_failure_witness :
  updateFields CtxObject (Some clumsy) (Obj {[ "req" := Object 1 ]}) Undefined
    world0
  = (mkWorld ctx0 [Logged HookErrorRecord Error
                     (Call1 (Prim (ErrorObj "Error" "clumsy")))] [],
     Normal (Obj {[ "req" := Object 1 ]})).
Proof.
  apply (updateFields_isolates_hook_failure clumsy
           (Obj {[ "req" := Object 1 ]}) Undefined world0 (Bunyan "test")
           {[ "req" := Object 1 ]} (ErrorObj "Error" "clumsy"));
    reflexivity.
Defined.

(** X4.  On a context that has its logger the completion callback always
    returns and writes exactly one completion record, after at most two
    hook-error records, whatever its hooks throw; it then sets [ctx.log] to
    [null] and changes nothing else of the context. *)
Theorem onResponseFinished_always_completes (cb : Callback) (now : Z)
    (w : World) (lg : Logger) :
  log (ctx w) = Some lg ->
  let w' := fst (onResponseFinished cb now w) in
  snd (onResponseFinished cb now w) = Normal tt
  /\ ctx w' = clear_log (ctx w)
  /\ pending w' = pending w
  /\ count_kind CompletionRecord (history w')
     = S (count_kind CompletionRecord (history w))
  /\ (exists errs lvl m,
        history w'
        = history w ++ errs
          ++ [Logged CompletionRecord lvl
                (Call2 (completion_payload (cb_opts cb) (ctx w)
                          (cb_startTime cb) (cb_err cb) now) m)]
        /\ count_kind HookErrorRecord errs = length errs
        /\ (length errs <= 2)%nat).
Proof.
  intros Hlog w'. subst w'.
  rewrite (onResponseFinished_attached cb now w lg Hlog). cbn [fst snd].
  split; [done|]. split; [done|]. split; [done|]. split.
  - cbn [history]. rewrite !count_kind_app, !hook_errors_no_completion.
    unfold count_kind at 2; simpl. lia.
  - cbn [history]. do 3 eexists. split.
    + rewrite (app_assoc (hook_errors _ _ _)). reflexivity.
    + assert (Hone : forall func data arg,
                 count_kind HookErrorRecord (hook_errors func data arg)
                 = length (hook_errors func data arg)
                 /\ (length (hook_errors func data arg) <= 1)%nat).
      { intros func data arg. unfold hook_errors.
        destruct func as [h|]; [|split; [done|simpl; lia]].
        destruct (h data arg); split; try done; simpl; lia. }
      rewrite count_kind_app, length_app.
      destruct (Hone (updateLogFields (cb_opts cb))
                  (Obj (responseData_base (cb_opts cb) (ctx w)
                          (cb_startTime cb) (cb_err cb) now)) None)
        as [-> H1].
      destruct (Hone (updateResponseLogFields (cb_opts cb))
                  (hook_result (updateLogFields (cb_opts cb))
                     (Obj (responseData_base (cb_opts cb) (ctx w)
                             (cb_startTime cb) (cb_err cb) now)) None)
                  (err_arg (cb_err cb)))
        as [-> H2].
      split; lia.
Qed.

Lemma onResponseFinished_always_completes_witness :
  log (ctx (fst (onResponseFinished (mkCallback clumsy_response_opts 1000
                                       Undefined) 1005 world0)))
  = None.
Proof.
  pose proof (onResponseFinished_always_completes
                (mkCallback clumsy_response_opts 1000 Undefined) 1005 world0
                (Bunyan "test") eq_refl) as (_ & H & _).
  by rewrite H.
Defined.

(** Once [ctx.log] is gone the callback cannot report anything: it raises
    the [TypeError] of the missing logger and leaves the world as it is. *)
Lemma onResponseFinished_no_logger (cb : Callback) (now : Z) (w : World) :
  log (ctx w) = None ->
  onResponseFinished cb now w = (w, Thrown log_is_missing).
Proof.
  intros Hlog.
  assert (Hcall : forall k lvl call,
             log_call CtxObject k lvl call w = (w, Thrown log_is_missing)).
  { intros. unfold log_call, bind, get_ctx. by rewrite Hlog. }
  assert (Hupd : forall func data err,
             (exists d, updateFields CtxObject func data err w = (w, Normal d))
             \/ updateFields CtxObject func data err w
                = (w, Thrown log_is_missing)).
  { intros func data err. unfold updateFields.
    destruct func as [h|]; [|by left; eexists].
    destruct (h data (err_arg err)); [by left; eexists|].
    right. unfold bind. by rewrite Hcall. }
  unfold onResponseFinished, bind, get_ctx.
  destruct (Hupd (updateLogFields (cb_opts cb))
              (Obj (responseData_base (cb_opts cb) (ctx w) (cb_startTime cb)
                      (cb_err cb) now)) Undefined) as [[d1 ->] | ->]; [|done].
  destruct (Hupd (updateResponseLogFields (cb_opts cb)) d1 (cb_err cb))
    as [[d2 ->] | ->]; [|done].
  by rewrite Hcall.
Qed.

(** X5.  When several completion callbacks wait on the same response (the
    middleware mounted more than once), only the first one writes its
    record: it clears [ctx.log], and every later callback fails on the
    missing logger without writing anything. *)
Theorem transport_finish_first_callback_only (now : Z) (w : World)
    (lg : Logger) (cb : Callback) (rest : list Callback) :
  log (ctx w) = Some lg ->
  pending w = cb :: rest ->
  transport_finish now w
  = fire now (mkWorld (ctx w) (history w ++ [TransportFinished]) []) cb
  /\ count_kind CompletionRecord (history (transport_finish now w))
     = S (count_kind CompletionRecord (history w)).
Proof.
  intros Hlog Hpend.
  set (w0 := mkWorld (ctx w) (history w ++ [TransportFinished]) []).
  assert (Hrest : forall (cbs : list Callback) (w1 : World),
             log (ctx w1) = None -> fold_left (fire now) cbs w1 = w1).
  { induction cbs as [|c cbs IH]; intros w1 H1; [done|].
    simpl. unfold fire at 2. rewrite (onResponseFinished_no_logger c now w1 H1).
    by apply IH. }
  assert (Hfirst : transport_finish now w = fire now w0 cb).
  { unfold transport_finish. rewrite Hpend. simpl. fold w0.
    apply Hrest. unfold fire.
    by rewrite (onResponseFinished_attached cb now w0 lg Hlog). }
  split; [exact Hfirst|]. rewrite Hfirst. unfold fire.
  rewrite (onResponseFinished_attached cb now w0 lg Hlog). simpl.
  rewrite !count_kind_app, !hook_errors_no_completion.
  unfold count_kind at 2 3; simpl. lia.
Qed.

Lemma transport_finish_first_callback_only_witness :
  count_kind CompletionRecord
    (history (transport_finish 1005
                (mkWorld ctx0 []
                   [mkCallback noOpts 1000 Undefined;
                    mkCallback noOpts 1001 Undefined])))
  = 1%nat.
Proof.
  refine (proj2 (transport_finish_first_callback_only 1005
                   (mkWorld ctx0 []
                      [mkCallback noOpts 1000 Undefined;
                       mkCallback noOpts 1001 Undefined])
                   (Bunyan "test") (mkCallback noOpts 1000 Undefined)
                   [mkCallback noOpts 1001 Undefined] _ _));
    reflexivity.
Defined.

(** X6.  With the default [levelFn] the level of the completion record is
    read off the status the context has when the callback runs: error from
    500, warn from 400, info below; the captured error plays no part. *)
Theorem completion_level_follows_status (cb : Callback) (now : Z) (w : World)
    (lg : Logger) :
  log (ctx w) = Some lg ->
  levelFn (cb_opts cb) = None ->
  exists h lvl payload m,
    history (fst (onResponseFinished cb now w))
    = h ++ [Logged CompletionRecord lvl (Call2 payload m)]
    /\ (500 <= status (ctx w) -> lvl = Error)
    /\ (400 <= status (ctx w) < 500 -> lvl = Warn)
    /\ (status (ctx w) < 400 -> lvl = Info).
Proof.
  intros Hlog Hdefault.
  rewrite (onResponseFinished_attached cb now w lg Hlog). cbn [fst history].
  do 4 eexists. split; [rewrite !app_assoc; reflexivity|].
  unfold levelFn_of. rewrite Hdefault. unfold default_levelFn.
  repeat split; intros H.
  - destruct (Z.leb_spec 500 (status (ctx w))); [done|lia].
  - destruct (Z.leb_spec 500 (status (ctx w))); [lia|].
    destruct (Z.leb_spec 400 (status (ctx w))); [done|lia].
  - destruct (Z.leb_spec 500 (status (ctx w))); [lia|].
    destruct (Z.leb_spec 400 (status (ctx w))); [lia|done].
Qed.

Lemma completion_level_follows_status_witness :
  exists h payload m,
    history (fst (onResponseFinished (mkCallback noOpts 1000 uh_oh) 1005
                    (mkWorld (respond500 ctx0) [] [])))
    = h ++ [Logged CompletionRecord Error (Call2 payload m)].
Proof.
  destruct (completion_level_follows_status (mkCallback noOpts 1000 uh_oh)
              1005 (mkWorld (respond500 ctx0) [] []) (Bunyan "test")
              eq_refl eq_refl) as (h & lvl & payload & m & Hh & H500 & _).
  exists h, payload, m. rewrite Hh.
  assert (Hstatus : (500 <= 500)%Z) by lia.
  by rewrite (H500 Hstatus).
Defined.

(** On a context without logger the runner either returns at once or fails
    while reporting; it writes nothing. *)
Lemma updateFields_no_logger (c : ctxArg) (func : option Hook) (data : value)
    (err : atom) (w : World) :
  log (ctx w) = None ->
  (exists d, updateFields c func data err w = (w, Normal d))
  \/ (exists e, updateFields c func data err w = (w, Thrown e)
                /\ (e = log_is_missing \/ e = undefined_has_no_log)).
Proof.
  intros Hlog. unfold updateFields.
  destruct func as [h|]; [|by left; eexists].
  destruct (h data (err_arg err)); [by left; eexists|].
  right. unfold bind, log_call. destruct c.
  - eexists. split; [reflexivity|by right].
  - unfold bind, get_ctx. rewrite Hlog. eexists. split; [reflexivity|by left].
Qed.

(** X8.  Mounted without the logger middleware ([ctx.log] missing),
    [requestLogger] fails with a [TypeError] before anything happens: no
    record is written, the chain is not run and no callback is queued. *)
Theorem requestLogger_without_logger (opts : Opts) (this : ctxArg)
    (next : Handler) (now : Z) (w : World) :
  log (ctx w) = None ->
  exists e,
    requestLogger opts this next now w = (w, Thrown e)
    /\ (e = log_is_missing \/ e = undefined_has_no_log).
Proof.
  intros Hlog. unfold requestLogger, request_phase, bind, get_ctx.
  destruct (updateFields_no_logger this (updateLogFields opts)
              (Obj {[ "req" := req (ctx w) ]}) Undefined w Hlog)
    as [[d1 ->] | (e & -> & He)]; [|by exists e].
  destruct (updateFields_no_logger this (updateRequestLogFields opts) d1
              Undefined w Hlog)
    as [[d2 ->] | (e & -> & He)]; [|by exists e].
  unfold log_call, bind, get_ctx. rewrite Hlog.
  exists log_is_missing. split; [reflexivity|by left].
Qed.

Lemma requestLogger_without_logger_witness :
  exists e,
    requestLogger test_opts CtxUndefined helloWorld 1000 world_bare
    = (world_bare, Thrown e).
Proof.
  destruct (requestLogger_without_logger test_opts CtxUndefined helloWorld
              1000 world_bare eq_refl) as (e & He & _).
  by exists e.
Defined.

(** X9.  Behind the logger middleware the precondition of [requestLogger]
    holds whatever the context was before: the request record is written
    and the completion callback is queued (for hooks that return in the
    request phase, or with the context as receiver). *)
Theorem koaBunyanLogger_enables_requestLogger (loggerInstance : Logger)
    (opts : Opts) (this : ctxArg) (next : Handler) (now : Z) (w : World) :
  let d0 := Obj {[ "req" := req (ctx w) ]} in
  this = CtxObject
  \/ (hook_throws (updateLogFields opts) d0 None = false
      /\ hook_throws (updateRequestLogFields opts)
           (hook_result (updateLogFields opts) d0 None) None = false) ->
  let w' :=
    fst (koaBunyanLogger loggerInstance (requestLogger opts this next now) w) in
  count_kind RequestRecord (history w')
  = S (count_kind RequestRecord (history w))
  /\ exists err, pending w' = pending w ++ [mkCallback opts now err].
Proof.
  intros d0 Hthis w'. subst d0 w'.
  unfold koaBunyanLogger, bind, get_ctx, put_ctx.
  set (w1 := mkWorld _ (history w) (pending w)).
  assert (Hlog : log (ctx w1) = Some loggerInstance) by done.
  assert (Hreq : exists es,
             request_phase opts this w1
             = (logged w1
                  (es ++ [Logged RequestRecord Info
                            (Call2 (request_payload opts (ctx w1))
                               (formatRequestMessage_of opts (ctx w1)
                                  (request_payload opts (ctx w1))))]),
                Normal tt)
             /\ count_kind RequestRecord es = 0%nat).
  { destruct Hthis as [-> | [H0 H1]].
    - rewrite (request_phase_on_ctx opts w1 loggerInstance Hlog).
      eexists. split; [by rewrite app_assoc|].
      by rewrite count_kind_app, !count_kind_hook_errors.
    - rewrite (request_phase_quiet opts this w1 loggerInstance Hlog H0 H1).
      by exists []. }
  destruct Hreq as (es & Hreq & Hes).
  unfold requestLogger, bind. rewrite Hreq.
  destruct (next (ctx (logged w1
                         (es ++ [Logged RequestRecord Info
                                   (Call2 (request_payload opts (ctx w1))
                                      (formatRequestMessage_of opts (ctx w1)
                                         (request_payload opts (ctx w1))))]))))
    as [[cx' logs] settled] eqn:Hnext.
  rewrite (handler_phase_settled opts next now _ cx' logs settled Hnext).
  cbn [fst history pending logged]. split; [|by eexists].
  subst w1. cbn [history].
  rewrite !count_kind_app, Hes, count_kind_handler_events by done.
  unfold count_kind at 2 3; simpl. lia.
Qed.

Lemma koaBunyanLogger_enables_requestLogger_witness :
  count_kind RequestRecord
    (history (fst (koaBunyanLogger (Bunyan "koa")
                     (requestLogger test_opts CtxUndefined helloWorld 1000)
                     world_bare)))
  = 1%nat.
Proof.
  refine (proj1 (koaBunyanLogger_enables_requestLogger (Bunyan "koa") test_opts
                   CtxUndefined helloWorld 1000 world_bare _)).
  right. split; reflexivity.
Defined.

(** ** timeContext *)

Lemma plain_label_not_proto (label : string) :
  inherited_name label = false -> String.eqb label "__proto__" = false.
Proof.
  intros H. destruct (String.eqb_spec label "__proto__") as [-> |]; [|done].
  discriminate H.
Qed.

(** A label that names nothing inherited is stored as an own property. *)
Lemma assign_startTime_plain (st : StartTimes) (label : string) (v : slot) :
  inherited_name label = false ->
  assign_startTime st label v
  = mkStartTimes (<[label := v]> (own st)) (inherits st).
Proof.
  intros H. unfold assign_startTime.
  destruct (own st !! label); [done|].
  by rewrite (plain_label_not_proto label H), andb_false_r.
Qed.

Lemma get_startTime_plain (st : StartTimes) (label : string) :
  inherited_name label = false ->
  own st !! label = None ->
  get_startTime st label = EUndefined.
Proof.
  intros H Hown. unfold get_startTime. by rewrite Hown, H, andb_false_r.
Qed.

(** X10.  Timers of different labels do not disturb each other.  On the
    fresh table of a request, for two distinct labels that name nothing
    inherited and start readings other than 0: [time(a)], [time(b)],
    [timeEnd(b)], [timeEnd(a)] write no warning and exactly two duration
    records, for [b] then for [a], each with its own end reading minus its
    own start reading, and leave both entries cleared. *)
Theorem nested_timers (opts : TimeContext.Opts) (a b : string)
    (ta tb tb' ta' : Z) (w : World) (lg : Logger) :
  log (ctx w) = Some lg ->
  a <> b ->
  inherited_name a = false ->
  inherited_name b = false ->
  ta <> 0 ->
  tb <> 0 ->
  let w1 := fst (TimeContext.timeContext w) in
  let w2 := fst (TimeContext.time a ta w1) in
  let w3 := fst (TimeContext.time b tb w2) in
  let w4 := fst (TimeContext.timeEnd opts b tb' w3) in
  let w5 := fst (TimeContext.timeEnd opts a ta' w4) in
  let fields_b := Obj (TimeContext.timer_fields b (Finite (tb' - tb))) in
  let fields_a := Obj (TimeContext.timer_fields a (Finite (ta' - ta))) in
  let hook := TimeContext.updateLogFields opts in
  history w5
  = history w
    ++ hook_errors hook fields_b None
    ++ [Logged TimerRecord (TimeContext.logLevel_of opts)
          (Call1 (hook_result hook fields_b None))]
    ++ hook_errors hook fields_a None
    ++ [Logged TimerRecord (TimeContext.logLevel_of opts)
          (Call1 (hook_result hook fields_a None))]
  /\ get_startTime (_timeContextStartTimes (ctx w5)) a = ENull
  /\ get_startTime (_timeContextStartTimes (ctx w5)) b = ENull.
Proof.
  intros Hlog Hab Ha Hb Hta Htb w1 w2 w3 w4 w5 fields_b fields_a hook.
  (* the fresh table *)
  assert (H1 : w1 = mkWorld (with_startTimes (mkStartTimes ∅ true) (ctx w))
                      (history w) (pending w)) by reflexivity.
  (* time(a) *)
  assert (H2 : w2 = mkWorld
                      (with_startTimes
                         (mkStartTimes {[ a := Started ta ]} true) (ctx w))
                      (history w) (pending w)).
  { subst w2. rewrite H1. rewrite time_fresh.
    - cbn [fst ctx with_startTimes _timeContextStartTimes].
      by rewrite (assign_startTime_plain _ a _ Ha).
    - cbn [ctx with_startTimes _timeContextStartTimes].
      by rewrite (get_startTime_plain _ a Ha). }
  (* time(b) *)
  assert (H3 : w3 = mkWorld
                      (with_startTimes
                         (mkStartTimes
                            (<[b := Started tb]> {[ a := Started ta ]}) true)
                         (ctx w))
                      (history w) (pending w)).
  { subst w3. rewrite H2. rewrite time_fresh.
    - cbn [fst ctx with_startTimes _timeContextStartTimes].
      by rewrite (assign_startTime_plain _ b _ Hb).
    - cbn [ctx with_startTimes _timeContextStartTimes].
      rewrite (get_startTime_plain _ b Hb); [done|].
      cbn [own]. by rewrite lookup_singleton_ne. }
  (* timeEnd(b) *)
  assert (Hlog3 : log (ctx w3) = Some lg) by (by rewrite H3).
  assert (Hget3 : get_startTime (_timeContextStartTimes (ctx w3)) b
                  = ENumber tb).
  { rewrite H3. cbn [ctx with_startTimes _timeContextStartTimes].
    unfold get_startTime. cbn [own]. by rewrite lookup_insert_eq. }
  assert (H4 : w4 = mkWorld
                      (with_startTimes
                         (mkStartTimes
                            (<[b := Cleared]>
                               (<[b := Started tb]> {[ a := Started ta ]}))
                            true)
                         (ctx w))
                      (history w
                       ++ hook_errors hook fields_b None
                       ++ [Logged TimerRecord (TimeContext.logLevel_of opts)
                             (Call1 (hook_result hook fields_b None))])
                      (pending w)).
  { subst w4. rewrite (timeEnd_truthy opts b tb' w3 lg Hlog3).
    - rewrite Hget3. cbn [fst minus_entry]. rewrite H3.
      cbn [ctx with_startTimes _timeContextStartTimes history pending log req
           res status method originalUrl].
      by rewrite (assign_startTime_plain _ b _ Hb).
    - rewrite Hget3. cbn [entry_truthy]. by destruct (Z.eqb_spec tb 0). }
  (* timeEnd(a) *)
  assert (Hlog4 : log (ctx w4) = Some lg) by (by rewrite H4).
  assert (Hget4 : get_startTime (_timeContextStartTimes (ctx w4)) a
                  = ENumber ta).
  { rewrite H4. cbn [ctx with_startTimes _timeContextStartTimes].
    unfold get_startTime. cbn [own].
    rewrite !lookup_insert_ne by done. by rewrite lookup_singleton_eq. }
  assert (H5 : w5 = mkWorld
                      (with_startTimes
                         (mkStartTimes
                            (<[a := Cleared]>
                               (<[b := Cleared]>
                                  (<[b := Started tb]> {[ a := Started ta ]})))
                            true)
                         (ctx w))
                      (history w
                       ++ hook_errors hook fields_b None
                       ++ [Logged TimerRecord (TimeContext.logLevel_of opts)
                             (Call1 (hook_result hook fields_b None))]
                       ++ hook_errors hook fields_a None
                       ++ [Logged TimerRecord (TimeContext.logLevel_of opts)
                             (Call1 (hook_result hook fields_a None))])
                      (pending w)).
  { subst w5. rewrite (timeEnd_truthy opts a ta' w4 lg Hlog4).
    - rewrite Hget4. cbn [fst minus_entry]. rewrite H4.
      cbn [ctx with_startTimes _timeContextStartTimes history pending log req
           res status method originalUrl].
      rewrite (assign_startTime_plain _ a _ Ha). cbn [own inherits].
      by rewrite <- !app_assoc.
    - rewrite Hget4. cbn [entry_truthy]. by destruct (Z.eqb_spec ta 0). }
  rewrite H5. cbn [history ctx with_startTimes _timeContextStartTimes].
  split; [done|]. unfold get_startTime; cbn [own]. split.
  - by rewrite lookup_insert_eq.
  - rewrite lookup_insert_ne by done. by rewrite lookup_insert_eq.
Qed.

Lemma nested_timers_witness :
  let w1 := fst (TimeContext.timeContext world0) in
  let w2 := fst (TimeContext.time "foo" 5 w1) in
  let w3 := fst (TimeContext.time "bar" 6 w2) in
  let w4 := fst (TimeContext.timeEnd (TimeContext.mkOpts None None) "bar" 8 w3) in
  let w5 := fst (TimeContext.timeEnd (TimeContext.mkOpts None None) "foo" 9 w4) in
  map (fun v => field v "duration") (payloads TimerRecord (history w5))
  = [Some (Num 2); Some (Num 4)].
Proof.
  assert (Hab : "foo" <> "bar") by done.
  assert (H5 : (5 <> 0)%Z) by lia.
  assert (H6 : (6 <> 0)%Z) by lia.
  pose proof (nested_timers (TimeContext.mkOpts None None) "foo" "bar" 5 6 8 9
                world0 (Bunyan "test") eq_refl Hab eq_refl eq_refl H5 H6)
    as [H _].
  cbn zeta in H. cbn zeta. rewrite H. vm_compute. reflexivity.
Defined.

(** X11.  Restarting a timer replaces its start reading: whatever start
    was recorded for the label, after [time(label)] at a reading other than
    0 the next [timeEnd(label)] measures from that reading; the restart
    itself costs one warning, unless the earlier reading was 0. *)
Theorem time_restart_uses_latest_start (opts : TimeContext.Opts)
    (label : string) (t0 t1 t2 : Z) (w : World) (lg : Logger) :
  log (ctx w) = Some lg ->
  own (_timeContextStartTimes (ctx w)) !! label = Some (Started t0) ->
  t1 <> 0 ->
  let w1 := fst (TimeContext.time label t1 w) in
  let fields := Obj (TimeContext.timer_fields label (Finite (t2 - t1))) in
  let hook := TimeContext.updateLogFields opts in
  TimeContext.timeEnd opts label t2 w1
  = (mkWorld
       (with_startTimes
          (mkStartTimes
             (<[label := Cleared]> (own (_timeContextStartTimes (ctx w))))
             (inherits (_timeContextStartTimes (ctx w))))
          (ctx w))
       (history w
        ++ (if Z.eqb t0 0 then []
            else [Logged TimerWarning Warn
                    (CallFmt "time() called for previously used label %s"
                       label)])
        ++ hook_errors hook fields None
        ++ [Logged TimerRecord (TimeContext.logLevel_of opts)
              (Call1 (hook_result hook fields None))])
       (pending w),
     Normal tt).
Proof.
  intros Hlog Hentry Ht1 w1 fields hook.
  assert (H1 : w1 = mkWorld
                      (with_startTimes
                         (mkStartTimes
                            (<[label := Started t1]>
                               (own (_timeContextStartTimes (ctx w))))
                            (inherits (_timeContextStartTimes (ctx w))))
                         (ctx w))
                      (history w
                       ++ (if Z.eqb t0 0 then []
                           else [Logged TimerWarning Warn
                                   (CallFmt
                                      "time() called for previously used label %s"
                                      label)]))
                      (pending w)).
  { subst w1. unfold TimeContext.time, bind, get_ctx.
    rewrite (get_startTime_own _ _ _ Hentry). cbn [entry_truthy].
    destruct (Z.eqb t0 0); cbn [negb].
    - unfold ret. rewrite set_startTime_spec. cbn [fst].
      by rewrite (assign_startTime_own _ _ _ _ Hentry), app_nil_r.
    - rewrite (log_call_attached _ _ _ w lg Hlog).
      rewrite set_startTime_spec. cbn [fst ctx logged].
      by rewrite (assign_startTime_own _ _ _ _ Hentry). }
  assert (Hlog1 : log (ctx w1) = Some lg) by (by rewrite H1).
  assert (Hown1 : own (_timeContextStartTimes (ctx w1)) !! label
                  = Some (Started t1)).
  { rewrite H1. cbn [ctx with_startTimes _timeContextStartTimes own].
    apply lookup_insert_eq. }
  rewrite (timeEnd_truthy opts label t2 w1 lg Hlog1).
  - rewrite (get_startTime_own _ _ _ Hown1). cbn [minus_entry].
    rewrite (assign_startTime_own _ _ _ _ Hown1). rewrite H1.
    cbn [ctx with_startTimes _timeContextStartTimes history pending log req
         res status method originalUrl own inherits].
    rewrite insert_insert_eq. by rewrite <- !app_assoc.
  - rewrite (get_startTime_own _ _ _ Hown1). cbn [entry_truthy].
    by destruct (Z.eqb_spec t1 0).
Qed.

Lemma time_restart_uses_latest_start_witness :
  let w0 := fst (TimeContext.time "x" 3 world0) in
  let w1 := fst (TimeContext.time "x" 10 w0) in
  map (fun v => field v "duration")
    (payloads TimerRecord
       (history (fst (TimeContext.timeEnd (TimeContext.mkOpts None None) "x"
                        25 w1))))
  = [Some (Num 15)].
Proof.
  assert (H10 : (10 <> 0)%Z) by lia.
  pose proof (time_restart_uses_latest_start (TimeContext.mkOpts None None)
                "x" 3 10 25 (fst (TimeContext.time "x" 3 world0))
                (Bunyan "test") eq_refl eq_refl H10) as H.
  cbn zeta in H. cbn zeta. rewrite H. vm_compute. reflexivity.
Defined.

(** X12.  On a table that still has its prototype, the first [time] for a
    label that names a property of [Object.prototype] writes the warning for
    a previously used label although the label was never used; the start is
    then stored, except under [__proto__], where the assignment is lost. *)
Theorem time_inherited_label_spurious_warning (label : string) (now : Z)
    (w : World) (lg : Logger) :
  log (ctx w) = Some lg ->
  let st := _timeContextStartTimes (ctx w) in
  own st !! label = None ->
  inherits st = true ->
  inherited_name label = true ->
  TimeContext.time label now w
  = (mkWorld
       (with_startTimes (assign_startTime st label (Started now)) (ctx w))
       (history w
        ++ [Logged TimerWarning Warn
              (CallFmt "time() called for previously used label %s" label)])
       (pending w),
     Normal tt)
  /\ (label <> "__proto__" ->
      own (assign_startTime st label (Started now)) !! label
      = Some (Started now))
  /\ (label = "__proto__" -> assign_startTime st label (Started now) = st).
Proof.
  intros Hlog st Hown Hinh Hname. split; [|split].
  - unfold TimeContext.time, bind, get_ctx. fold st.
    unfold get_startTime. rewrite Hown, Hinh, Hname. cbn [andb entry_truthy].
    rewrite (log_call_attached _ _ _ w lg Hlog).
    by rewrite set_startTime_spec.
  - intros Hne. unfold assign_startTime. rewrite Hown, Hinh.
    destruct (String.eqb_spec label "__proto__"); [done|].
    cbn [andb own]. apply lookup_insert_eq.
  - intros ->. unfold assign_startTime. by rewrite Hown, Hinh.
Qed.

Lemma time_inherited_label_spurious_warning_witness :
  history (fst (TimeContext.time "toString" 12 world0))
  = [Logged TimerWarning Warn
       (CallFmt "time() called for previously used label %s" "toString")].
Proof.
  pose proof (time_inherited_label_spurious_warning "toString" 12 world0
                (Bunyan "test") eq_refl eq_refl eq_refl eq_refl) as [H _].
  by rewrite H.
Defined.

(** ** The logger middleware and requestIdContext *)

(** X13.  An object that is not a complete logger (its [info] or its
    [child] is falsy) is taken as options for [bunyan.createLogger]: [name]
    and [serializers] keep a truthy given value and otherwise become "koa"
    and the standard serializers, and every other property is handed on as
    given. *)
Theorem createOrUseLogger_completes_options (stdSerializers : atom)
    (l : gmap string atom) :
  truthy (property l "info") && truthy (property l "child") = false ->
  exists o,
    createOrUseLogger stdSerializers (Some l) = CreateLogger o
    /\ property o "name" = or_else (property l "name") (Str "koa")
    /\ property o "serializers"
       = or_else (property l "serializers") stdSerializers
    /\ (forall k, k <> "name" -> k <> "serializers" -> o !! k = l !! k).
Proof.
  intros Hpartial. exists (completed_options stdSerializers l).
  split; [|split; [|split]].
  - unfold createOrUseLogger.
    destruct (truthy (property l "info")), (truthy (property l "child"));
      done.
  - unfold completed_options, property.
    rewrite lookup_insert_ne by done. by rewrite lookup_insert_eq.
  - unfold completed_options, property at 1. rewrite lookup_insert_eq.
    unfold property. by rewrite lookup_insert_ne.
  - intros k Hname Hser. unfold completed_options.
    by rewrite !lookup_insert_ne.
Qed.

Lemma createOrUseLogger_completes_options_witness :
  exists o,
    createOrUseLogger (Object 0) (Some some_options) = CreateLogger o
    /\ property o "name" = Str "koa"
    /\ o !! "level" = Some (Str "debug").
Proof.
  destruct (createOrUseLogger_completes_options (Object 0) some_options
              eq_refl) as (o & Ho & Hname & _ & Hframe).
  exists o. split; [exact Ho|]. split; [exact Hname|].
  by rewrite Hframe.
Defined.

(** A complete logger is used as it is: nothing is created and the object
    is not touched. *)
Lemma createOrUseLogger_keeps_logger (stdSerializers : atom)
    (l : gmap string atom) :
  truthy (property l "info") = true ->
  truthy (property l "child") = true ->
  createOrUseLogger stdSerializers (Some l) = UseInstance l.
Proof.
  intros Hinfo Hchild. unfold createOrUseLogger. by rewrite Hinfo, Hchild.
Qed.

(** X14.  The request id is the value of the configured header when the
    request carries a non-empty one, and the generated id otherwise; it is
    never empty as long as the generated id is not. *)
Theorem request_id_header_or_generated (C L : Type)
    (K : RequestIdContext.Koa C L) (opts : RequestIdContext.Opts)
    (uuid_v4 : string) (c : C) :
  uuid_v4 <> EmptyString ->
  let name :=
    RequestIdContext.or_default (RequestIdContext.header opts) "X-Request-Id" in
  let reqId := RequestIdContext.request_id K opts uuid_v4 c in
  reqId <> EmptyString
  /\ (RequestIdContext.request_get K c name <> EmptyString ->
      reqId = RequestIdContext.request_get K c name)
  /\ (RequestIdContext.request_get K c name = EmptyString -> reqId = uuid_v4).
Proof.
  intros Huuid name reqId. subst name reqId.
  unfold RequestIdContext.request_id.
  destruct (String.eqb_spec
              (RequestIdContext.request_get K c
                 (RequestIdContext.or_default (RequestIdContext.header opts)
                    "X-Request-Id")) EmptyString) as [Heq|Hne].
  - split; [done|]. split; [by intros H|done].
  - split; [done|]. split; [done|by intros H].
Qed.

Lemma request_id_header_or_generated_witness :
  RequestIdContext.request_id RequestIdContext.toy RequestIdContext.noOpts
    "generated"
    (RequestIdContext.mkToyCtx {[ "X-Request-Id" := "1234" ]} ∅ ∅ None)
  = "1234".
Proof.
  assert (Huuid : "generated" <> EmptyString) by done.
  pose proof (request_id_header_or_generated _ _ RequestIdContext.toy
                RequestIdContext.noOpts "generated"
                (RequestIdContext.mkToyCtx {[ "X-Request-Id" := "1234" ]}
                   ∅ ∅ None) Huuid) as (_ & H & _).
  cbn zeta in H. apply H. vm_compute. discriminate.
Defined.



(** ** timeEnd without time, for an ordinary label *)

Lemma timeEnd_without_time_warns_witness :
  TimeContext.timeEnd (TimeContext.mkOpts None None) "blam" 7 world0
  = (logged world0
       [Logged TimerWarning Warn
          (CallFmt "timeEnd() called without time() for label %s" "blam")],
     Normal tt).
Proof.
  apply (timeEnd_without_time_warns (TimeContext.mkOpts None None) "blam" 7
           world0 (Bunyan "test")); [reflexivity|].
  left. split; reflexivity.
Defined.

(** ** The completion record, whenever the response is finished *)



